(** * scan_services: service inventory across sysv, upstart, chkconfig and systemd

    A shallow embedding of [library/scan_services.py] and the properties
    of its parsers, of the chkconfig fallback chain and of the merge done
    by [main].

    Text is modelled as [string] (one [ascii] per character, so the model
    covers ASCII text), Python dictionaries as stdpp's [gmap] with string
    keys, and the host (binary lookup, command execution, the init
    identity file) as a record of functions. *)

From Stdlib Require Import ZArith String Ascii List Bool Lia.
From stdpp Require Import base option list gmap strings.

Open Scope string_scope.
Open Scope list_scope.

(** ** Python string primitives *)

Module PyStr.

(** Whitespace as [str.split()], [str.isspace] and the regex class [\s] see
    it on ASCII text: TAB, LF, VT, FF, CR, FS, GS, RS, US and space. *)
Definition isspace (c : ascii) : bool :=
  let n := nat_of_ascii c in
  ((9 <=? n)%nat && (n <=? 13)%nat) || ((28 <=? n)%nat && (n <=? 32)%nat).

Definition isdigit (c : ascii) : bool :=
  let n := nat_of_ascii c in (48 <=? n)%nat && (n <=? 57)%nat.

Definition isupper (c : ascii) : bool :=
  let n := nat_of_ascii c in (65 <=? n)%nat && (n <=? 90)%nat.

Definition islower (c : ascii) : bool :=
  let n := nat_of_ascii c in (97 <=? n)%nat && (n <=? 122)%nat.

(** The regex class [\w] on ASCII text: letters, digits and underscore. *)
Definition isword (c : ascii) : bool :=
  isupper c || islower c || isdigit c || Ascii.eqb c "_"%char.

Definition char_lower (c : ascii) : ascii :=
  if isupper c then ascii_of_nat (nat_of_ascii c + 32) else c.

(** [s.lower()] *)
Fixpoint lower (s : string) : string :=
  match s with
  | EmptyString => EmptyString
  | String c s' => String (char_lower c) (lower s')
  end.

(** [s.startswith(p)] *)
Fixpoint startswith (p s : string) : bool :=
  match p, s with
  | EmptyString, _ => true
  | String _ _, EmptyString => false
  | String a p', String b s' => Ascii.eqb a b && startswith p' s'
  end.

(** [needle in hay] *)
Fixpoint contains (needle hay : string) : bool :=
  startswith needle hay ||
  match hay with
  | EmptyString => false
  | String _ hay' => contains needle hay'
  end.

(** [s.replace(c, "")] for a one-character [c] *)
Fixpoint remove_char (c : ascii) (s : string) : string :=
  match s with
  | EmptyString => EmptyString
  | String a s' =>
      if Ascii.eqb a c then remove_char c s' else String a (remove_char c s')
  end.

(** [s.split(sep)] for a one-character separator: empty fields are kept,
    and the result is never empty. *)
Fixpoint split_on (sep : ascii) (s : string) : list string :=
  match s with
  | EmptyString => [EmptyString]
  | String c s' =>
      if Ascii.eqb c sep then EmptyString :: split_on sep s'
      else match split_on sep s' with
           | [] => [String c EmptyString]
           | w :: ws => String c w :: ws
           end
  end.

(** [s.split()]: fields are the maximal runs of non-whitespace. *)
Fixpoint split (s : string) : list string :=
  match s with
  | EmptyString => []
  | String c s' =>
      if isspace c then split s'
      else match s' with
           | EmptyString => [String c EmptyString]
           | String c' _ =>
               if isspace c' then String c EmptyString :: split s'
               else match split s' with
                    | [] => [String c EmptyString]
                    | w :: ws => String c w :: ws
                    end
           end
  end.

(** [sep.join(l)] *)
Definition join (sep : string) (l : list string) : string :=
  String.concat sep l.

(** [s[:n]] *)
Fixpoint take (n : nat) (s : string) : string :=
  match n, s with
  | S n', String c s' => String c (take n' s')
  | _, _ => EmptyString
  end.

Definition LF : ascii := "010"%char.
Definition CR : ascii := "013"%char.
Definition DQUOTE : ascii := "034"%char.

End PyStr.

(** ** The fragment of Python's [re] the scanners use

    A backtracking matcher with Python's priorities: a greedy quantifier
    tries the longest repetition first, a lazy one the shortest, an
    alternation its left branch first, and the first complete match wins.
    Every [*] and [+] of the source patterns is applied to a single
    character class, so repetition recurses on the subject text. *)

Module Re.

Inductive cls : Type :=
| Dot                  (* .      any character but a line feed *)
| Space                (* \s *)
| Word                 (* \w *)
| Digit                (* [0-9] *)
| Char (c : ascii).    (* a literal character *)

Definition cls_match (k : cls) (c : ascii) : bool :=
  match k with
  | Dot => negb (Ascii.eqb c PyStr.LF)
  | Space => PyStr.isspace c
  | Word => PyStr.isword c
  | Digit => PyStr.isdigit c
  | Char a => Ascii.eqb a c
  end.

Inductive quant : Type := Greedy | Lazy.

Inductive regex : Type :=
| Empty
| One (k : cls)
| Many (k : cls) (min : nat) (q : quant)   (* k* and k+ ; k*? and k+? *)
| Cat (r1 r2 : regex)
| Alt (r1 r2 : regex)                      (* r1|r2 *)
| Opt (r : regex)                          (* r? *)
| Group (r : regex)                        (* (r) *)
| Named (name : string) (r : regex)        (* (?P<name>r) *)
| Bol                                      (* ^ *)
| Eol.                                     (* $ *)

Definition seq (l : list regex) : regex := foldr Cat Empty l.

Fixpoint lit (s : string) : regex :=
  match s with
  | EmptyString => Empty
  | String c s' => Cat (One (Char c)) (lit s')
  end.

(** The named groups of a match object; a group that took no part in the
    match is absent, which is Python's [None]. *)
Abbreviation groups := (gmap string string).

(** What is left to match: the position in the subject, the rest of the
    subject from there, and the groups closed so far. *)
Definition cont : Type := nat → string → groups → option groups.

Fixpoint many_greedy (k : cls) (min pos : nat) (s : string) (g : groups)
    (c : cont) : option groups :=
  match s with
  | String a s' =>
      if cls_match k a then
        match many_greedy k (pred min) (S pos) s' g c with
        | Some r => Some r
        | None => match min with O => c pos s g | S _ => None end
        end
      else match min with O => c pos s g | S _ => None end
  | EmptyString => match min with O => c pos s g | S _ => None end
  end.

Fixpoint many_lazy (k : cls) (min pos : nat) (s : string) (g : groups)
    (c : cont) : option groups :=
  let more :=
    fun _ : unit =>
      match s with
      | String a s' =>
          if cls_match k a then many_lazy k (pred min) (S pos) s' g c else None
      | EmptyString => None
      end in
  match min with
  | O => match c pos s g with
         | Some r => Some r
         | None => more tt
         end
  | S _ => more tt
  end.

Fixpoint run (r : regex) (pos : nat) (s : string) (g : groups) (c : cont)
    : option groups :=
  match r with
  | Empty => c pos s g
  | One k =>
      match s with
      | String a s' => if cls_match k a then c (S pos) s' g else None
      | EmptyString => None
      end
  | Many k min Greedy => many_greedy k min pos s g c
  | Many k min Lazy => many_lazy k min pos s g c
  | Cat r1 r2 => run r1 pos s g (fun pos' s' g' => run r2 pos' s' g' c)
  | Alt r1 r2 =>
      match run r1 pos s g c with
      | Some m => Some m
      | None => run r2 pos s g c
      end
  | Opt r1 =>
      match run r1 pos s g c with
      | Some m => Some m
      | None => c pos s g
      end
  | Group r1 => run r1 pos s g c
  | Named name r1 =>
      run r1 pos s g
        (fun pos' s' g' => c pos' s' (<[name := PyStr.take (pos' - pos) s]> g'))
  | Bol => if (pos =? 0)%nat then c pos s g else None
  | Eol =>
      match s with
      | EmptyString => c pos s g
      | String a EmptyString => if Ascii.eqb a PyStr.LF then c pos s g else None
      | String _ (String _ _) => None
      end
  end.

(** [p.match(line)]: anchored at the start of [line], free at its end. *)
Definition match_ (p : regex) (line : string) : option groups :=
  run p 0 line ∅ (fun _ _ g => Some g).

End Re.

(** ** Data model *)

(** A value stored in a service record: a string, or the integer that
    [service_state = rc] puts in the state variable for a moment. *)
Inductive pyval : Type :=
| PStr (s : string)
| PInt (n : Z).

#[global] Instance pyval_eq_dec : EqDecision pyval.
Proof. solve_decision. Defined.

(** A service record is the dictionary the scanners build,
    [{"name": .., "state": .., "source": ..}] with ["goal"] for upstart. *)
Abbreviation record := (gmap string pyval).

(** [services] and [all_services]: service name to record. *)
Abbreviation registry := (gmap string (gmap string pyval)).

(** The host as the module object shows it to the scanners. *)
Record Host : Type := {
  (* module.get_bin_path(name, opt_dirs=...) *)
  get_bin_path : string → list string → option string;
  (* module.run_command(cmd, use_unsafe_shell=...) = (rc, stdout, stderr);
     a probe is answered the same way throughout one scan *)
  run_command : string → bool → Z * string * string;
  (* the lines of /proc/1/comm, or [None] when open() raises IOError *)
  proc_1_comm : option (list string)
}.

(** The places of the source that call [run_command]. *)
Inductive site : Type :=
| SysvStatusAll          (* line 58:  <service> --status-all ... *)
| InitctlList            (* line 70:  <initctl> list *)
| ChkconfigBase          (* line 88:  <chkconfig> *)
| ChkconfigAllServices   (* line 105: <chkconfig> -l --allservices *)
| ChkconfigList          (* line 111: <chkconfig> --list *)
| ServiceStatus          (* line 120: <service> <name> status *)
| SystemctlListUnitFiles (* line 156: <systemctl> list-unit-files ... *).

#[global] Instance site_eq_dec : EqDecision site.
Proof. solve_decision. Defined.

(** The commands a scan ran, oldest first, each with its call site. *)
Abbreviation trace := (list (site * string)).

(** The local state of one [gather_services] call: the [services]
    dictionary, [self.incomplete_warning], and the commands run so far. *)
Record scan : Type := Scan {
  services : gmap string (gmap string pyval);
  incomplete : bool;
  calls : list (site * string)
}.

(** What a scanner leaves behind: the value [gather_services] returned
    ([None] or the dictionary), the object's [incomplete_warning]
    attribute, and the commands it ran. *)
Record outcome : Type := Outcome {
  svc : option (gmap string (gmap string pyval));
  incomplete_warning : bool;
  ran : list (site * string)
}.

(** [BaseService.__init__]: [incomplete_warning = False]. *)
Definition init : scan := Scan ∅ false [].

Definition set_service (name : string) (r : gmap string pyval) (st : scan) : scan :=
  Scan (<[name := r]> (services st)) (incomplete st) (calls st).

Definition log (k : site) (cmd : string) (st : scan) : scan :=
  Scan (services st) (incomplete st) (calls st ++ [(k, cmd)]).

(** [l[i]] where a length test has put [i] in range. *)
Definition item (l : list string) (i : nat) : string := nth i l "".

(** [m[name]] for a group the pattern cannot skip. *)
Definition group (m : gmap string string) (name : string) : string :=
  default "" (m !! name).

(** ** class ServiceScanService *)

Module ServiceScanService.

(** *** sysvinit (lines 56-65) *)

(** Line 58: the service path followed by
    [ --status-all 2>&1 | grep -E ] and the quoted pattern [\[ (\+|\-) \]]. *)
Definition status_all_cmd (service_path : string) : string :=
  service_path +:+ " --status-all 2>&1 | grep -E "
    +:+ String PyStr.DQUOTE "\[ (\+|\-) \]" +:+ String PyStr.DQUOTE "".

(** The body of the loop over the lines of the status listing. *)
Definition sysv_line (st : scan) (line : string) : scan :=
  let line_data := PyStr.split line in
  if (length line_data <? 4)%nat then st
  else
    let service_name := PyStr.join " " (drop 3 line_data) in
    let service_state :=
      if String.eqb (item line_data 1) "+" then "running" else "stopped" in
    set_service service_name
      {[ "name" := PStr service_name;
         "state" := PStr service_state;
         "source" := PStr "sysv" ]} st.

Definition sysvinit (h : Host) (service_path : string) (st : scan) : scan :=
  let cmd := status_all_cmd service_path in
  let '(rc, stdout, stderr) := run_command h cmd true in
  foldl sysv_line (log SysvStatusAll cmd st) (PyStr.split_on PyStr.LF stdout).

(** *** Upstart (lines 67-81) *)

(** The pattern [p] of line 69, piece by piece. *)
Definition upstart_p : Re.regex :=
  Re.seq
    [ Re.Bol;                                          (* ^ *)
      Re.Opt (Re.One Re.Space);                        (* \s? *)
      Re.Named "name" (Re.Many Re.Dot 0 Re.Greedy);    (* group name: greedy .* *)
      Re.One Re.Space;                                 (* \s *)
      Re.Named "goal" (Re.Many Re.Word 1 Re.Greedy);   (* group goal: \w+ *)
      Re.One (Re.Char "/");                            (* \/ *)
      Re.Named "state" (Re.Many Re.Word 1 Re.Greedy);  (* group state: \w+ *)
      Re.Opt (Re.Group (Re.seq                         (* ( ... )? *)
        [ Re.One (Re.Char ",");                        (* \, *)
          Re.One Re.Space;                             (* \s *)
          Re.lit "process";                            (* process *)
          Re.One Re.Space;                             (* \s *)
          Re.Named "pid" (Re.Many Re.Digit 1 Re.Greedy) ]));  (* group pid: [0-9]+ *)
      Re.Many Re.Space 0 Re.Greedy;                    (* \s* *)
      Re.Eol ].                                        (* $ *)

(** [m['pid'] or None] *)
Definition pid_of (m : gmap string string) : option string :=
  match m !! "pid" with
  | Some EmptyString => None
  | o => o
  end.

(** The body of the loop over the lines of [initctl list]. The local [pid]
    is computed and then left out of [payload], as in the source. *)
Definition upstart_line (st : scan) (line : string) : scan :=
  match Re.match_ upstart_p line with
  | None => st
  | Some m =>
      let service_name := group m "name" in
      let service_goal := group m "goal" in
      let service_state := group m "state" in
      let pid := pid_of m in
      let payload : gmap string pyval :=
        {[ "name" := PStr service_name;
           "state" := PStr service_state;
           "goal" := PStr service_goal;
           "source" := PStr "upstart" ]} in
      set_service service_name payload st
  end.

Definition upstart (h : Host) (initctl_path : string) (st : scan) : scan :=
  let cmd := initctl_path +:+ " list" in
  let '(rc, stdout, stderr) := run_command h cmd false in
  let real_stdout := PyStr.remove_char PyStr.CR stdout in
  foldl upstart_line (log InitctlList cmd st) (PyStr.split_on PyStr.LF real_stdout).

(** *** chkconfig (lines 83-134) *)

(** [[0-9]:(?P<rlN>on|off)] *)
Definition runlevel (name : string) : list Re.regex :=
  [ Re.One Re.Digit; Re.One (Re.Char ":");
    Re.Named name (Re.Alt (Re.lit "on") (Re.lit "off")) ].

(** The pattern [p] of lines 85-87: the group service, a lazy [.*?], and
    then [\s+[0-9]:(?P<rlN>on|off)] for each of rl0 to rl6. *)
Definition p : Re.regex :=
  Re.seq
    ([ Re.Named "service" (Re.Many Re.Dot 0 Re.Lazy); Re.Many Re.Space 1 Re.Greedy ]
     ++ runlevel "rl0" ++ [ Re.Many Re.Space 1 Re.Greedy ]
     ++ runlevel "rl1" ++ [ Re.Many Re.Space 1 Re.Greedy ]
     ++ runlevel "rl2" ++ [ Re.Many Re.Space 1 Re.Greedy ]
     ++ runlevel "rl3" ++ [ Re.Many Re.Space 1 Re.Greedy ]
     ++ runlevel "rl4" ++ [ Re.Many Re.Space 1 Re.Greedy ]
     ++ runlevel "rl5" ++ [ Re.Many Re.Space 1 Re.Greedy ]
     ++ runlevel "rl6").

(** The pattern [p_simple] of line 98: the group service, a lazy [.*?],
    and then [\s+(?P<rl0>on|off)]. *)
Definition p_simple : Re.regex :=
  Re.seq
    [ Re.Named "service" (Re.Many Re.Dot 0 Re.Lazy);
      Re.Many Re.Space 1 Re.Greedy;
      Re.Named "rl0" (Re.Alt (Re.lit "on") (Re.lit "off")) ].

(** The [match_any] loops: does some line of [stdout] match [pat]? *)
Definition match_any (pat : Re.regex) (stdout : string) : bool :=
  foldl (fun match_any line =>
           match Re.match_ pat line with
           | Some _ => true
           | None => match_any
           end)
        false (PyStr.split_on PyStr.LF stdout).

(** Lines 88-113: run the listing and, where its output does not fit [p],
    run it again with other flags. Returns the [stdout] and [stderr] the
    parse loop starts from. *)
Definition listing (h : Host) (chkconfig_path : string) (st : scan)
    : string * string * scan :=
  let '(rc, stdout, stderr) := run_command h chkconfig_path true in
  let st := log ChkconfigBase chkconfig_path st in
  if match_any p stdout then (stdout, stderr, st)
  else if match_any p_simple stdout then
    let cmd := chkconfig_path +:+ " -l --allservices" in
    let '(rc, stdout, stderr) := run_command h cmd true in
    (stdout, stderr, log ChkconfigAllServices cmd st)
  else if PyStr.contains "--list" stderr then
    let cmd := chkconfig_path +:+ " --list" in
    let '(rc, stdout, stderr) := run_command h cmd true in
    (stdout, stderr, log ChkconfigList cmd st)
  else (stdout, stderr, st).

(** ['root' in stderr or 'permission' in stderr.lower()
     or 'not in sudoers' in stderr.lower()] *)
Definition permission_denied (stderr : string) : bool :=
  PyStr.contains "root" stderr
  || PyStr.contains "permission" (PyStr.lower stderr)
  || PyStr.contains "not in sudoers" (PyStr.lower stderr).

(** The body of the parse loop, lines 116-134. *)
Definition chkconfig_line (h : Host) (service_path : string) (st : scan)
    (line : string) : scan :=
  match Re.match_ p line with
  | None => st
  | Some m =>
      let service_name := group m "service" in
      let service_state := PStr "stopped" in
      if String.eqb (group m "rl3") "on" then
        let cmd := service_path +:+ " " +:+ service_name +:+ " status" in
        let '(rc, stdout, stderr) := run_command h cmd true in
        let st := log ServiceStatus cmd st in
        let service_state := PInt rc in
        if bool_decide (service_state = PInt 0) then
          let service_state := PStr "running" in
          set_service service_name
            {[ "name" := PStr service_name;
               "state" := service_state;
               "source" := PStr "sysv" ]} st
        else if permission_denied stderr then
          (* self.incomplete_warning = True; continue *)
          Scan (services st) true (calls st)
        else
          let service_state := PStr "stopped" in
          set_service service_name
            {[ "name" := PStr service_name;
               "state" := service_state;
               "source" := PStr "sysv" ]} st
      else
        set_service service_name
          {[ "name" := PStr service_name;
             "state" := service_state;
             "source" := PStr "sysv" ]} st
  end.

Definition chkconfig (h : Host) (service_path chkconfig_path : string)
    (st : scan) : scan :=
  let '(stdout, stderr, st) := listing h chkconfig_path st in
  foldl (chkconfig_line h service_path) st (PyStr.split_on PyStr.LF stdout).

(** *** gather_services (lines 48-135) *)

Definition gather_services (h : Host) : outcome :=
  match get_bin_path h "service" [] with
  | None => Outcome None false []
  | Some service_path =>
      let initctl_path := get_bin_path h "initctl" [] in
      let chkconfig_path := get_bin_path h "chkconfig" [] in
      let st := init in
      (* sysvinit *)
      let st :=
        match chkconfig_path with
        | None => sysvinit h service_path st
        | Some _ => st
        end in
      (* Upstart, elif chkconfig *)
      let st :=
        match initctl_path, chkconfig_path with
        | Some initctl_path, None => upstart h initctl_path st
        | _, Some chkconfig_path => chkconfig h service_path chkconfig_path st
        | None, None => st
        end in
      Outcome (Some (services st)) (incomplete st) (calls st)
  end.

End ServiceScanService.

(** ** class SystemctlScanService *)

Module SystemctlScanService.

(** [systemd_enabled] (lines 140-147) *)
Definition systemd_enabled (h : Host) : bool :=
  match proc_1_comm h with
  | None => false
  | Some f => existsb (fun line => PyStr.contains "systemd" line) f
  end.

(** The body of the loop over the lines of the unit-file listing. *)
Definition systemd_line (st : scan) (line : string) : scan :=
  let line_data := PyStr.split line in
  if negb (length line_data =? 2)%nat then st
  else
    let state_val :=
      if String.eqb (item line_data 1) "enabled" then "running" else "stopped" in
    set_service (item line_data 0)
      {[ "name" := PStr (item line_data 0);
         "state" := PStr state_val;
         "source" := PStr "systemd" ]} st.

(** [gather_services] (lines 149-167) *)
Definition gather_services (h : Host) : outcome :=
  if negb (systemd_enabled h) then Outcome None false []
  else
    match get_bin_path h "systemctl" ["/usr/bin"; "/usr/local/bin"] with
    | None => Outcome None false []
    | Some systemctl_path =>
        let cmd :=
          systemctl_path
            +:+ " list-unit-files --type=service | tail -n +2 | head -n -2" in
        let '(rc, stdout, stderr) := run_command h cmd true in
        let st :=
          foldl systemd_line (log SystemctlListUnitFiles cmd init)
                (PyStr.split_on PyStr.LF stdout) in
        Outcome (Some (services st)) (incomplete st) (calls st)
    end.

End SystemctlScanService.

(** ** main (lines 170-188) *)

(** The argument of [module.exit_json]: [dict(skipped=True, msg=..)], or
    [dict(ansible_facts=dict(services=..))] with an optional [msg]. *)
Inductive results : Type :=
| Skipped (msg : string)
| Facts (services : gmap string (gmap string pyval)) (msg : option string).

Definition FAILED_MSG : string :=
  "Failed to find any services. Sometimes this is due to insufficient privileges.".

Definition WARNING_MSG : string :=
  "WARNING: Could not find status for all services. Sometimes this is due to insufficient privileges.".

(** [service_modules = (ServiceScanService, SystemctlScanService)] *)
Definition service_modules : list (Host → outcome) :=
  [ ServiceScanService.gather_services; SystemctlScanService.gather_services ].

(** The body of the loop over [service_modules]: [all_services |= svc]
    lets the scanner's records replace those already there. *)
Definition merge (h : Host) (acc : scan) (svc_module : Host → outcome) : scan :=
  let svcmod := svc_module h in
  match svc svcmod with
  | Some s =>
      Scan (s ∪ services acc)
           (if incomplete_warning svcmod then true else incomplete acc)
           (calls acc ++ ran svcmod)
  | None => Scan (services acc) (incomplete acc) (calls acc ++ ran svcmod)
  end.

Definition scan_all (h : Host) : scan := foldl (merge h) init service_modules.

Definition report (acc : scan) : results :=
  let all_services := services acc in
  if decide (all_services = ∅) then Skipped FAILED_MSG
  else Facts all_services (if incomplete acc then Some WARNING_MSG else None).

Definition main (h : Host) : results := report (scan_all h).

(** ** Concrete hosts *)

Module Hosts.

(** Lines joined by line feeds, as a command prints them. *)
Definition unlines (l : list string) : string :=
  PyStr.join (String PyStr.LF "") l.

Fixpoint assoc {A : Type} (k : string) (l : list (string * A)) : option A :=
  match l with
  | [] => None
  | (k', v) :: l' => if String.eqb k k' then Some v else assoc k l'
  end.

(** A host given by its binaries, by the answers of its commands (a command
    not listed exits with 127), and by the lines of /proc/1/comm. *)
Definition host_of (bins : list (string * string))
    (cmds : list (string * (Z * string * string)))
    (comm : option (list string)) : Host :=
  {| get_bin_path := fun name _ => assoc name bins;
     run_command := fun cmd _ =>
       default (127%Z, "", "command not found") (assoc cmd cmds);
     proc_1_comm := comm |}.

(** A Debian-like host with Upstart: [service] and [initctl], no
    chkconfig, no systemd. *)
Definition upstart_host : Host :=
  host_of
    [ ("service", "/usr/sbin/service"); ("initctl", "/sbin/initctl") ]
    [ (ServiceScanService.status_all_cmd "/usr/sbin/service",
       (0%Z, unlines [ " [ + ]  acpid"; " [ - ]  my svc"; " [ ? ]"; "" ], ""));
      ("/sbin/initctl list",
       (0%Z, unlines [ "ssh start/running, process 1234";
                       "tty1 stop/waiting"; "" ], "")) ]
    None.

(** A Red Hat-like host: [service] and [chkconfig], init is not systemd.
    The servers crond and ntpd can be probed, vault cannot. *)
Definition chkconfig_host : Host :=
  host_of
    [ ("service", "/sbin/service"); ("chkconfig", "/sbin/chkconfig") ]
    [ ("/sbin/chkconfig",
       (0%Z, unlines [ "crond   0:off 1:off 2:on 3:on 4:on 5:on 6:off";
                       "vault   0:off 1:off 2:on 3:on 4:on 5:on 6:off";
                       "ntpd    0:off 1:off 2:on 3:on 4:on 5:on 6:off";
                       "kdump   0:off 1:off 2:off 3:off 4:off 5:off 6:off";
                       "" ], ""));
      ("/sbin/service crond status", (0%Z, "crond is running...", ""));
      ("/sbin/service vault status",
       (1%Z, "", "Sorry, user deploy is Not In Sudoers."));
      ("/sbin/service ntpd status", (3%Z, "ntpd is stopped", "")) ]
    (Some [ "init" ]).

(** A host where init is systemd and [service] has no chkconfig beside
    it: both scanners report the unit named cron. *)
Definition systemd_host : Host :=
  host_of
    [ ("service", "/usr/sbin/service"); ("systemctl", "/bin/systemctl") ]
    [ (ServiceScanService.status_all_cmd "/usr/sbin/service",
       (0%Z, unlines [ " [ + ]  cron"; " [ + ]  udev"; "" ], ""));
      ("/bin/systemctl list-unit-files --type=service | tail -n +2 | head -n -2",
       (0%Z, unlines [ "cron disabled"; "sshd.service enabled"; "" ], "")) ]
    (Some [ "systemd" ]).

(** A host with no service manager at all. *)
Definition bare_host : Host := host_of [] [] None.

(** Hosts without the [service] binary. *)
Definition initctl_only_host : Host :=
  host_of
    [ ("initctl", "/sbin/initctl") ]
    [ ("/sbin/initctl list", (0%Z, "ssh start/running, process 1234", "")) ]
    None.

Definition chkconfig_only_host : Host :=
  host_of
    [ ("chkconfig", "/sbin/chkconfig") ]
    [ ("/sbin/chkconfig",
       (0%Z, "kdump   0:off 1:off 2:off 3:off 4:off 5:off 6:off", "")) ]
    None.

(** A SUSE-like host: the plain listing has two columns, the listing with
    [-l --allservices] has the runlevels. *)
Definition suse_host : Host :=
  host_of
    [ ("service", "/sbin/service"); ("chkconfig", "/sbin/chkconfig") ]
    [ ("/sbin/chkconfig", (0%Z, unlines [ "cron  on"; "kdump  off"; "" ], ""));
      ("/sbin/chkconfig -l --allservices",
       (0%Z, unlines [ "cron   0:off 1:off 2:on 3:on 4:off 5:on 6:off";
                       "kdump  0:off 1:off 2:off 3:off 4:off 5:off 6:off";
                       "" ], ""));
      ("/sbin/service cron status", (0%Z, "running", "")) ]
    None.

(** An old Red Hat-like host: the plain command prints its usage on
    stderr, the listing needs [--list]. *)
Definition rhel5_host : Host :=
  host_of
    [ ("service", "/sbin/service"); ("chkconfig", "/sbin/chkconfig") ]
    [ ("/sbin/chkconfig", (1%Z, "", "usage:   chkconfig --list [name]"));
      ("/sbin/chkconfig --list",
       (0%Z, unlines [ "kdump  0:off 1:off 2:off 3:off 4:off 5:off 6:off"; "" ],
        "")) ]
    None.

(** The chkconfig host with systemd as init; the unit listing has a unit
    under the name vault. *)
Definition shadowed_host : Host :=
  host_of
    [ ("service", "/sbin/service"); ("chkconfig", "/sbin/chkconfig");
      ("systemctl", "/usr/bin/systemctl") ]
    [ ("/sbin/chkconfig",
       (0%Z, unlines [ "crond   0:off 1:off 2:on 3:on 4:on 5:on 6:off";
                       "vault   0:off 1:off 2:on 3:on 4:on 5:on 6:off";
                       "" ], ""));
      ("/sbin/service crond status", (0%Z, "crond is running...", ""));
      ("/sbin/service vault status",
       (1%Z, "", "Sorry, user deploy is not in sudoers."));
      ("/usr/bin/systemctl list-unit-files --type=service | tail -n +2 | head -n -2",
       (0%Z, unlines [ "vault enabled"; "" ], "")) ]
    (Some [ "systemd" ]).

(** A chkconfig listing that names vault twice, the second time with
    runlevel 3 off. *)
Definition relisted_host : Host :=
  host_of
    [ ("service", "/sbin/service"); ("chkconfig", "/sbin/chkconfig") ]
    [ ("/sbin/chkconfig",
       (0%Z, unlines [ "crond   0:off 1:off 2:on 3:on 4:on 5:on 6:off";
                       "vault   0:off 1:off 2:on 3:on 4:on 5:on 6:off";
                       "vault   0:off 1:off 2:off 3:off 4:off 5:off 6:off";
                       "" ], ""));
      ("/sbin/service crond status", (0%Z, "crond is running...", ""));
      ("/sbin/service vault status",
       (1%Z, "", "Sorry, user deploy is not in sudoers.")) ]
    None.

(** A host whose unit listing names a unit twice. *)
Definition relisted_units_host : Host :=
  host_of
    [ ("systemctl", "/usr/bin/systemctl") ]
    [ ("/usr/bin/systemctl list-unit-files --type=service | tail -n +2 | head -n -2",
       (0%Z, unlines [ "sshd.service enabled"; "cron.service static";
                             "sshd.service masked"; "2 unit files"; "" ], "")) ]
    (Some [ "systemd" ]).

(** A host whose chkconfig prints nothing that either pattern matches. *)
Definition mute_chkconfig_host : Host :=
  host_of
    [ ("service", "/sbin/service"); ("chkconfig", "/sbin/chkconfig") ]
    [ ("/sbin/chkconfig", (0%Z, unlines [ "xinetd based services:"; "" ], "")) ]
    None.

(** An Upstart host where both listings name ssh, and a sysv name has
    two words. *)
Definition shared_name_host : Host :=
  host_of
    [ ("service", "/usr/sbin/service"); ("initctl", "/sbin/initctl") ]
    [ (ServiceScanService.status_all_cmd "/usr/sbin/service",
       (0%Z, unlines [ " [ + ]  ssh"; " [ - ]  my   svc"; "" ], ""));
      ("/sbin/initctl list",
       (0%Z, unlines [ "ssh stop/waiting";
                             "ssh start/running, process 1234"; "" ], "")) ]
    None.

(** A chkconfig listing whose only service cannot be probed. *)
Definition lonely_host : Host :=
  host_of
    [ ("service", "/sbin/service"); ("chkconfig", "/sbin/chkconfig") ]
    [ ("/sbin/chkconfig",
       (0%Z, unlines [ "vault   0:off 1:off 2:on 3:on 4:on 5:on 6:off";
                       "" ], ""));
      ("/sbin/service vault status",
       (1%Z, "", "Sorry, user deploy is not in sudoers.")) ]
    None.

(** A chkconfig listing that names crond twice, the second time with
    runlevel 3 off, beside a vault that cannot be probed. *)
Definition relisted_sibling_host : Host :=
  host_of
    [ ("service", "/sbin/service"); ("chkconfig", "/sbin/chkconfig") ]
    [ ("/sbin/chkconfig",
       (0%Z, unlines [ "vault   0:off 1:off 2:on 3:on 4:on 5:on 6:off";
                       "crond   0:off 1:off 2:on 3:on 4:on 5:on 6:off";
                       "crond   0:off 1:off 2:off 3:off 4:off 5:off 6:off";
                       "" ], ""));
      ("/sbin/service crond status", (0%Z, "crond is running...", ""));
      ("/sbin/service vault status",
       (1%Z, "", "Sorry, user deploy is not in sudoers.")) ]
    None.

(** The chkconfig host with systemd as init; the unit listing has a unit
    under the name crond. *)
Definition shadowed_sibling_host : Host :=
  host_of
    [ ("service", "/sbin/service"); ("chkconfig", "/sbin/chkconfig");
      ("systemctl", "/usr/bin/systemctl") ]
    [ ("/sbin/chkconfig",
       (0%Z, unlines [ "crond   0:off 1:off 2:on 3:on 4:on 5:on 6:off";
                       "vault   0:off 1:off 2:on 3:on 4:on 5:on 6:off";
                       "" ], ""));
      ("/sbin/service crond status", (0%Z, "crond is running...", ""));
      ("/sbin/service vault status",
       (1%Z, "", "Sorry, user deploy is not in sudoers."));
      ("/usr/bin/systemctl list-unit-files --type=service | tail -n +2 | head -n -2",
       (0%Z, unlines [ "crond disabled"; "" ], "")) ]
    (Some [ "systemd" ]).

End Hosts.

(** ** The vocabulary of the properties *)

(** The record a scanner stores for [name]. *)
Definition record_of (name : string) (state : pyval) (source : string)
    : gmap string pyval :=
  {[ "name" := PStr name; "state" := state; "source" := PStr source ]}.

Definition rc_of (r : Z * string * string) : Z := r.1.1.
Definition stdout_of (r : Z * string * string) : string := r.1.2.
Definition stderr_of (r : Z * string * string) : string := r.2.

(** The command of line 121 for the service [name]. *)
Definition status_cmd (service_path name : string) : string :=
  service_path +:+ " " +:+ name +:+ " status".

(** The lines the chkconfig parse loop reads: the stdout the fallback
    chain of lines 88-113 ends with. *)
Definition listing_lines (h : Host) (chkconfig_path : string) : list string :=
  PyStr.split_on PyStr.LF
    (ServiceScanService.listing h chkconfig_path init).1.1.

(** Some line of [lines] matches the seven-runlevel pattern with the
    service [name] and [rl3] at runlevel 3. *)
Definition listed (lines : list string) (name rl3 : string) : Prop :=
  ∃ line m, line ∈ lines ∧ Re.match_ ServiceScanService.p line = Some m
            ∧ group m "service" = name ∧ group m "rl3" = rl3.

(** The answer of the status probe of the chkconfig loop. *)
Definition probe (h : Host) (service_path name : string) : Z * string * string :=
  run_command h (status_cmd service_path name) true.

(** The three marks of a refused probe, as line 128 tests them. *)
Definition refused (stderr : string) : Prop :=
  PyStr.contains "root" stderr = true
  ∨ PyStr.contains "permission" (PyStr.lower stderr) = true
  ∨ PyStr.contains "not in sudoers" (PyStr.lower stderr) = true.

(** The runlevel-3 column of the lines of [lines] that list [name]. *)
Definition runlevel3 (lines : list string) (name : string) : list string :=
  omap (λ line,
          m ← Re.match_ ServiceScanService.p line;
          if decide (group m "service" = name) then Some (group m "rl3")
          else None) lines.

(** The groups of a match object, in a given order. *)
Definition view (names : list string) (m : option (gmap string string))
    : option (list (option string)) :=
  (λ g : gmap string string, map (λ n, g !! n) names) <$> m.

(** Does every match of [r] set the group [name]? *)
Fixpoint binds (name : string) (r : Re.regex) : bool :=
  match r with
  | Re.Named n r1 => String.eqb n name || binds name r1
  | Re.Cat r1 r2 => binds name r1 || binds name r2
  | Re.Alt r1 r2 => binds name r1 && binds name r2
  | Re.Group r1 => binds name r1
  | _ => false
  end.

(** Does some line of [stdout] match [pat]? *)
Definition matches (pat : Re.regex) (stdout : string) : Prop :=
  Exists (λ line, is_Some (Re.match_ pat line)) (PyStr.split_on PyStr.LF stdout).

#[global] Instance matches_dec (pat : Re.regex) (stdout : string) :
  Decision (matches pat stdout).
Proof. unfold matches. apply _. Defined.

(** The scanner of [ServiceScanService] ran a command from the site [k]. *)
Definition runs (k : site) (h : Host) : Prop :=
  k ∈ (ran (ServiceScanService.gather_services h)).*1.

(** *** Properties of every stored record *)

(** [P] holds of what the sysv and chkconfig loops store. *)
Definition on_sysv (P : string → gmap string pyval → Prop) : Prop :=
  ∀ name state : string,
    state = "running" ∨ state = "stopped" →
    P name (record_of name (PStr state) "sysv").

(** [P] holds of what the upstart loop stores. *)
Definition on_upstart (P : string → gmap string pyval → Prop) : Prop :=
  ∀ name state goal : string,
    P name {[ "name" := PStr name; "state" := PStr state;
              "goal" := PStr goal; "source" := PStr "upstart" ]}.

(** [P] holds of what the systemd loop stores. *)
Definition on_systemd (P : string → gmap string pyval → Prop) : Prop :=
  ∀ name state : string,
    state = "running" ∨ state = "stopped" →
    P name (record_of name (PStr state) "systemd").

(** The record under key [k] is named [k] and comes from a known source. *)
Definition coherent (k : string) (r : gmap string pyval) : Prop :=
  r !! "name" = Some (PStr k)
  ∧ (r !! "source" = Some (PStr "sysv")
     ∨ r !! "source" = Some (PStr "upstart")
     ∨ r !! "source" = Some (PStr "systemd")).

(** The state of [r] is one of the two words, not an exit code. *)
Definition running_or_stopped (k : string) (r : gmap string pyval) : Prop :=
  r !! "state" = Some (PStr "running") ∨ r !! "state" = Some (PStr "stopped").

(** *** Vocabulary of the further properties *)

(** The value of the last two-token line of [lines] whose first token is
    [unit]. *)
Definition enablement (lines : list string) (unit : string) : option string :=
  last (omap (λ line,
                match PyStr.split line with
                | [u; v] => if decide (u = unit) then Some v else None
                | _ => None
                end) lines).

(** What the iteration on [x] stores under [name], when [entry x] is the
    key and the record it stores. *)
Definition stored_under {B : Type}
    (entry : B → option (string * gmap string pyval)) (name : string) (x : B)
    : option (gmap string pyval) :=
  match entry x with
  | Some (k, r) => if decide (k = name) then Some r else None
  | None => None
  end.

(** The command of line 157. *)
Definition list_unit_files_cmd (systemctl_path : string) : string :=
  systemctl_path +:+ " list-unit-files --type=service | tail -n +2 | head -n -2".

(** The marker (token 1) of the last line of [lines] that has at least 4
    tokens and whose tokens from the fourth on spell [name]. *)
Definition sysv_mark (lines : list string) (name : string) : option string :=
  last (omap (λ line,
                let tokens := PyStr.split line in
                if decide ((4 ≤ length tokens)%nat
                           ∧ PyStr.join " " (drop 3 tokens) = name)
                then tokens !! 1 else None) lines).

(** The match object of the last line of [lines] that the Upstart pattern
    matches with [name] as its name. *)
Definition upstart_job (lines : list string) (name : string)
    : option (gmap string string) :=
  last (omap (λ line,
                m ← Re.match_ ServiceScanService.upstart_p line;
                if decide (group m "name" = name) then Some m else None)
             lines).

(** The lines the sysv loop reads. *)
Definition status_lines (h : Host) (service_path : string) : list string :=
  PyStr.split_on PyStr.LF
    (stdout_of (run_command h (ServiceScanService.status_all_cmd service_path) true)).

(** The lines the Upstart loop reads; none without an initctl binary. *)
Definition job_lines (h : Host) : list string :=
  match get_bin_path h "initctl" [] with
  | Some initctl_path =>
      PyStr.split_on PyStr.LF
        (PyStr.remove_char PyStr.CR
           (stdout_of (run_command h (initctl_path +:+ " list") false)))
  | None => []
  end.

#[global] Instance refused_dec (stderr : string) : Decision (refused stderr).
Proof. unfold refused. apply _. Defined.

(** The state the chkconfig loop stores for a line that lists [name] with
    [rl3] at runlevel 3; [None] when it stores nothing. *)
Definition chkconfig_state (h : Host) (service_path name rl3 : string)
    : option string :=
  if decide (rl3 = "on") then
    if decide (rc_of (probe h service_path name) = 0%Z) then Some "running"
    else if decide (refused (stderr_of (probe h service_path name))) then None
    else Some "stopped"
  else Some "stopped".

(** The services of [lines] that are listed with runlevel 3 on, a line at
    a time. *)
Definition probed (lines : list string) : list string :=
  omap (λ line,
          m ← Re.match_ ServiceScanService.p line;
          if decide (group m "rl3" = "on") then Some (group m "service")
          else None) lines.

(** The keys of [r] are name, state and source, and goal with them exactly
    when the source is upstart. *)
Definition well_shaped (k : string) (r : gmap string pyval) : Prop :=
  (dom r = {[ "name"; "state"; "source" ]}
   ∧ (r !! "source" = Some (PStr "sysv") ∨ r !! "source" = Some (PStr "systemd")))
  ∨ (dom r = {[ "name"; "state"; "goal"; "source" ]}
     ∧ r !! "source" = Some (PStr "upstart")).

(** The state of [r] is a string, and running or stopped unless the source
    is upstart. *)
Definition state_is_text (k : string) (r : gmap string pyval) : Prop :=
  ∃ s, r !! "state" = Some (PStr s)
       ∧ (r !! "source" = Some (PStr "upstart")
          ∨ s = "running" ∨ s = "stopped").

(** [t] has no whitespace character. *)
Fixpoint no_space (t : string) : bool :=
  match t with
  | EmptyString => true
  | String c t' => negb (PyStr.isspace c) && no_space t'
  end.

(** [t] is a token: not empty and without whitespace. *)
Definition token (t : string) : Prop := t ≠ "" ∧ no_space t = true.

(** A name in normal form: not empty, and the single-space join of its own
    tokens, so without whitespace at either end and with single spaces
    inside. *)
Definition normal_name (name : string) : Prop :=
  name ≠ "" ∧ PyStr.join " " (PyStr.split name) = name.

(** Every character of [w] is in the class [k]. *)
Fixpoint all_in (k : Re.cls) (w : string) : bool :=
  match w with
  | EmptyString => true
  | String c w' => Re.cls_match k c && all_in k w'
  end.

(** The texts a pattern can consume, groups and anchors aside. *)
Fixpoint lang (r : Re.regex) (w : string) : Prop :=
  match r with
  | Re.Empty | Re.Bol | Re.Eol => w = ""
  | Re.One k => ∃ c, w = String c "" ∧ Re.cls_match k c = true
  | Re.Many k min _ => (min ≤ String.length w)%nat ∧ all_in k w = true
  | Re.Cat r1 r2 => ∃ w1 w2, w = w1 +:+ w2 ∧ lang r1 w1 ∧ lang r2 w2
  | Re.Alt r1 r2 => lang r1 w ∨ lang r2 w
  | Re.Opt r1 => w = "" ∨ lang r1 w
  | Re.Group r1 | Re.Named _ r1 => lang r1 w
  end.

(** Every group of [r] can only capture a text that [Q] allows for its
    name. *)
Fixpoint captures (Q : string → string → Prop) (r : Re.regex) : Prop :=
  match r with
  | Re.Named n r1 => captures Q r1 ∧ ∀ w, lang r1 w → Q n w
  | Re.Cat r1 r2 | Re.Alt r1 r2 => captures Q r1 ∧ captures Q r2
  | Re.Opt r1 | Re.Group r1 => captures Q r1
  | _ => True
  end.

(** The groups [g] hold only texts that [Q] allows. *)
Definition allowed (Q : string → string → Prop) (g : gmap string string) : Prop :=
  ∀ n v, g !! n = Some v → Q n v.

(** What the groups of the chkconfig patterns can hold: a runlevel group
    holds [on] or [off]. *)
Definition runlevel_text (n v : string) : Prop :=
  n = "service" ∨ v = "on" ∨ v = "off".

(** What the groups of the Upstart pattern can hold: goal and state a
    non-empty run of word characters, pid a non-empty run of digits, name a
    text without line feed. *)
Definition upstart_text (n v : string) : Prop :=
  (n = "goal" ∨ n = "state" → v ≠ "" ∧ all_in Re.Word v = true)
  ∧ (n = "pid" → v ≠ "" ∧ all_in Re.Digit v = true)
  ∧ (n = "name" → all_in Re.Dot v = true).

(** The map the first scanner returns on [Hosts.chkconfig_host]. *)
Definition chkconfig_host_map : gmap string (gmap string pyval) :=
  {[ "crond" := record_of "crond" (PStr "running") "sysv";
     "ntpd" := record_of "ntpd" (PStr "stopped") "sysv";
     "kdump" := record_of "kdump" (PStr "stopped") "sysv" ]}.

(** ** Properties *)

(** *** Sanity checks of the primitives *)

Example split_demo :
  PyStr.split " [ + ]  acpid x " = ["["; "+"; "]"; "acpid"; "x"].
Proof. reflexivity. Qed.

Example split_on_demo :
  PyStr.split_on PyStr.LF (Hosts.unlines ["a b"; ""; "c"; ""]) = ["a b"; ""; "c"; ""].
Proof. reflexivity. Qed.

(** The greedy name gives back just enough for the rest to match. *)
Example upstart_p_demo :
  view ["name"; "goal"; "state"; "pid"]
       (Re.match_ ServiceScanService.upstart_p "network-interface (lo) start/running")
  = Some [Some "network-interface (lo)"; Some "start"; Some "running"; None].
Proof. vm_compute. reflexivity. Qed.

Example upstart_p_no_match :
  Re.match_ ServiceScanService.upstart_p "a b/c, process 12x" = None.
Proof. vm_compute. reflexivity. Qed.

(** The lazy service name stops at the first run of whitespace that the
    runlevels can follow. *)
Example p_demo :
  view ["service"; "rl3"; "rl6"]
       (Re.match_ ServiceScanService.p "my svc  0:on 1:on 2:on 3:off 4:on 5:on 6:on trailing")
  = Some [Some "my svc"; Some "off"; Some "on"].
Proof. vm_compute. reflexivity. Qed.

Example p_simple_demo :
  view ["service"; "rl0"] (Re.match_ ServiceScanService.p_simple "a b on off")
  = Some [Some "a b"; Some "on"]
  ∧ Re.match_ ServiceScanService.p "a b on off" = None.
Proof. split; vm_compute; reflexivity. Qed.

(** One whole run: vault is refused and left out, the warning is set. *)
Example main_demo :
  main Hosts.chkconfig_host =
    Facts {[ "crond" := record_of "crond" (PStr "running") "sysv";
             "ntpd" := record_of "ntpd" (PStr "stopped") "sysv";
             "kdump" := record_of "kdump" (PStr "stopped") "sysv" ]}
          (Some WARNING_MSG).
Proof. vm_compute. reflexivity. Qed.

Lemma item_lookup (l : list string) (i : nat) (x : string) :
  l !! i = Some x → item l i = x.
Proof. intros H. unfold item. by apply nth_lookup_Some. Qed.

(** *** The matcher *)

Section Engine.
Variable name : string.

(** A repetition of a class that succeeds has run its continuation, with
    the groups it was given. *)
Lemma many_greedy_success (k : Re.cls) (s : string) (min pos : nat)
    (g : gmap string string) (c : Re.cont) (m : gmap string string) :
  Re.many_greedy k min pos s g c = Some m → ∃ pos' s', c pos' s' g = Some m.
Proof.
  revert min pos. induction s as [|a s IH]; intros min pos; simpl.
  - destruct min; [eauto|done].
  - destruct (Re.cls_match k a).
    + destruct (Re.many_greedy k (pred min) (S pos) s g c) eqn:E.
      * intros [= <-]. eauto.
      * destruct min; [eauto|done].
    + destruct min; [eauto|done].
Qed.

Lemma many_lazy_success (k : Re.cls) (s : string) (min pos : nat)
    (g : gmap string string) (c : Re.cont) (m : gmap string string) :
  Re.many_lazy k min pos s g c = Some m → ∃ pos' s', c pos' s' g = Some m.
Proof.
  revert min pos. induction s as [|a s IH]; intros min pos; simpl.
  - destruct min; [|done]. destruct (c pos "" g) eqn:E; [|done].
    intros [= <-]. eauto.
  - destruct min.
    + destruct (c pos (String a s) g) eqn:E.
      * intros [= <-]. eauto.
      * destruct (Re.cls_match k a); [eauto|done].
    + destruct (Re.cls_match k a); [eauto|done].
Qed.

(** A match that succeeds has run its continuation, with groups that
    extend the ones it was given and include what the pattern binds. *)
Lemma run_success (r : Re.regex) (pos : nat) (s : string)
    (g : gmap string string) (c : Re.cont) (m : gmap string string) :
  Re.run r pos s g c = Some m →
  ∃ pos' s' g',
    c pos' s' g' = Some m ∧ dom g ⊆ dom g'
    ∧ (binds name r = true → name ∈ dom g').
Proof.
  revert pos s g c.
  induction r as [|k|k min q|r1 IH1 r2 IH2|r1 IH1 r2 IH2|r1 IH1|r1 IH1
                 |n r1 IH1| |]; intros pos s g c; simpl.
  - intros H. by exists pos, s, g.
  - destruct s as [|a s]; [done|]. destruct (Re.cls_match k a); [|done].
    intros H. by exists (S pos), s, g.
  - destruct q.
    + intros (pos' & s' & H)%many_greedy_success. by exists pos', s', g.
    + intros (pos' & s' & H)%many_lazy_success. by exists pos', s', g.
  - intros (pos1 & s1 & g1 & H1 & Hd1 & Hb1)%IH1.
    apply IH2 in H1 as (pos2 & s2 & g2 & H2 & Hd2 & Hb2).
    exists pos2, s2, g2. split; [done|]. split; [by transitivity (dom g1)|].
    intros [Hb|Hb]%orb_true_iff; [|auto]. apply Hd2. auto.
  - destruct (Re.run r1 pos s g c) eqn:E.
    + intros [= <-]. apply IH1 in E as (pos' & s' & g' & H & Hd & Hb).
      exists pos', s', g'. split; [done|]. split; [done|].
      intros [Hb1 _]%andb_true_iff. auto.
    + intros (pos' & s' & g' & H & Hd & Hb)%IH2.
      exists pos', s', g'. split; [done|]. split; [done|].
      intros [_ Hb2]%andb_true_iff. auto.
  - destruct (Re.run r1 pos s g c) eqn:E.
    + intros [= <-]. apply IH1 in E as (pos' & s' & g' & H & Hd & _).
      by exists pos', s', g'.
    + intros H. by exists pos, s, g.
  - apply IH1.
  - intros (pos' & s' & g' & H & Hd & Hb)%IH1.
    eexists pos', s', _. split; [exact H|]. rewrite dom_insert_L.
    split; [by apply union_subseteq_r'|].
    intros [Hn|Hb1]%orb_true_iff.
    + apply String.eqb_eq in Hn as ->. apply elem_of_union_l. by apply elem_of_singleton.
    + apply elem_of_union_r. auto.
  - destruct (pos =? 0)%nat; [|done]. intros H. by exists pos, s, g.
  - destruct s as [|a [|b s]]; [| |done].
    + intros H. by exists pos, "", g.
    + destruct (Ascii.eqb a PyStr.LF); [|done].
      intros H. by exists pos, (String a ""), g.
Qed.
End Engine.

(** A group the pattern binds is set in every match object, so [group]
    reads what Python's [m[name]] reads. *)
Lemma group_bound (pat : Re.regex) (line name : string)
    (m : gmap string string) :
  Re.match_ pat line = Some m → binds name pat = true →
  m !! name = Some (group m name).
Proof.
  unfold Re.match_. intros (pos & s & g & [= <-] & _ & Hb)%(run_success name) Hn.
  apply Hb, elem_of_dom in Hn as [x Hx]. unfold group. by rewrite Hx.
Qed.

Lemma item_in_range (l : list string) (i : nat) :
  (i < length l)%nat → l !! i = Some (item l i).
Proof.
  intros Hi. destruct (lookup_lt_is_Some_2 l i Hi) as [x Hx].
  by rewrite (item_lookup l i x Hx).
Qed.

(** *** Loops *)

Section Loops.
Context {A B : Type} (f : A → B → A).

(** What every iteration keeps holds after the loop. *)
Lemma foldl_preserves (P : A → Prop) (l : list B) (a : A) :
  (∀ a' x, x ∈ l → P a' → P (f a' x)) → P a → P (foldl f a l).
Proof.
  revert a. induction l as [|y l IH]; intros a Hstep Ha; simpl; [done|].
  apply IH.
  - intros a' x Hx. apply Hstep. by right.
  - apply Hstep; [by left|done].
Qed.

(** What one iteration sets up and every iteration keeps holds after
    the loop. *)
Lemma foldl_reaches (P : A → Prop) (l : list B) (a : A) (x : B) :
  x ∈ l → (∀ a', P (f a' x)) → (∀ a' y, y ∈ l → P a' → P (f a' y)) →
  P (foldl f a l).
Proof.
  revert a. induction l as [|y l IH]; intros a Hx Hset Hkeep; simpl.
  - by apply not_elem_of_nil in Hx.
  - apply elem_of_cons in Hx as [->|Hx].
    + apply foldl_preserves; [|apply Hset].
      intros a' z Hz. apply Hkeep. by right.
    + apply IH; [done|done|].
      intros a' z Hz. apply Hkeep. by right.
Qed.
End Loops.

(** *** The loop bodies, case by case *)

Lemma sysv_line_cases (st : scan) (line : string) :
  ServiceScanService.sysv_line st line = st ∨
  ∃ name state : string,
    (state = "running" ∨ state = "stopped") ∧
    ServiceScanService.sysv_line st line =
      Scan (<[name := record_of name (PStr state) "sysv"]> (services st))
           (incomplete st) (calls st).
Proof.
  unfold ServiceScanService.sysv_line.
  destruct (length (PyStr.split line) <? 4)%nat; [by left|right].
  eexists _, _. split; [|reflexivity].
  destruct (String.eqb _ _); auto.
Qed.

Lemma upstart_line_cases (st : scan) (line : string) :
  ServiceScanService.upstart_line st line = st ∨
  ∃ name state goal : string,
    ServiceScanService.upstart_line st line =
      Scan (<[name := {[ "name" := PStr name; "state" := PStr state;
                         "goal" := PStr goal; "source" := PStr "upstart" ]}]>
              (services st))
           (incomplete st) (calls st).
Proof.
  unfold ServiceScanService.upstart_line.
  destruct (Re.match_ _ _) as [m|]; [right|by left].
  by eexists _, _, _.
Qed.

Lemma systemd_line_cases (st : scan) (line : string) :
  SystemctlScanService.systemd_line st line = st ∨
  ∃ name state : string,
    (state = "running" ∨ state = "stopped") ∧
    SystemctlScanService.systemd_line st line =
      Scan (<[name := record_of name (PStr state) "systemd"]> (services st))
           (incomplete st) (calls st).
Proof.
  unfold SystemctlScanService.systemd_line.
  destruct (negb _); [by left|right].
  eexists _, _. split; [|reflexivity].
  destruct (String.eqb _ _); auto.
Qed.

(** The chkconfig loop body without the detour of [service_state]
    through the exit code. *)
Lemma chkconfig_line_eq (h : Host) (service_path : string) (st : scan)
    (line : string) :
  ServiceScanService.chkconfig_line h service_path st line =
  match Re.match_ ServiceScanService.p line with
  | None => st
  | Some m =>
      let name := group m "service" in
      let cmd := status_cmd service_path name in
      let probe := run_command h cmd true in
      if String.eqb (group m "rl3") "on" then
        if decide (rc_of probe = 0%Z) then
          Scan (<[name := record_of name (PStr "running") "sysv"]> (services st))
               (incomplete st) (calls st ++ [(ServiceStatus, cmd)])
        else if ServiceScanService.permission_denied (stderr_of probe) then
          Scan (services st) true (calls st ++ [(ServiceStatus, cmd)])
        else
          Scan (<[name := record_of name (PStr "stopped") "sysv"]> (services st))
               (incomplete st) (calls st ++ [(ServiceStatus, cmd)])
      else
        Scan (<[name := record_of name (PStr "stopped") "sysv"]> (services st))
             (incomplete st) (calls st)
  end.
Proof.
  unfold ServiceScanService.chkconfig_line, status_cmd.
  destruct (Re.match_ _ _) as [m|]; [|done]. cbv zeta.
  destruct (String.eqb _ _); [|done].
  destruct (run_command _ _ _) as [[rc out] err].
  unfold rc_of, stderr_of. simpl.
  destruct (decide (rc = 0%Z)) as [->|Hrc].
  - by rewrite bool_decide_eq_true_2.
  - rewrite bool_decide_eq_false_2; [|congruence].
    by destruct (ServiceScanService.permission_denied err).
Qed.

(** *** What the loops store *)

Section Records.
Variable P : string → gmap string pyval → Prop.

Lemma sysvinit_records (h : Host) (service_path : string) (st : scan) :
  on_sysv P → map_Forall P (services st) →
  map_Forall P (services (ServiceScanService.sysvinit h service_path st)).
Proof.
  intros HP Hst. unfold ServiceScanService.sysvinit.
  destruct (run_command _ _ _) as [[rc out] err].
  apply (foldl_preserves _ (λ st, map_Forall P (services st))); [|done].
  intros a line _ Ha.
  destruct (sysv_line_cases a line) as [->|(name & state & Hs & ->)]; [done|].
  apply map_Forall_insert_2; auto.
Qed.

Lemma upstart_records (h : Host) (initctl_path : string) (st : scan) :
  on_upstart P → map_Forall P (services st) →
  map_Forall P (services (ServiceScanService.upstart h initctl_path st)).
Proof.
  intros HP Hst. unfold ServiceScanService.upstart.
  destruct (run_command _ _ _) as [[rc out] err].
  apply (foldl_preserves _ (λ st, map_Forall P (services st))); [|done].
  intros a line _ Ha.
  destruct (upstart_line_cases a line) as [->|(name & state & goal & ->)];
    [done|].
  apply map_Forall_insert_2; auto.
Qed.

Lemma chkconfig_line_records (h : Host) (service_path : string) (st : scan)
    (line : string) :
  on_sysv P → map_Forall P (services st) →
  map_Forall P
    (services (ServiceScanService.chkconfig_line h service_path st line)).
Proof.
  intros HP Hst. rewrite chkconfig_line_eq.
  destruct (Re.match_ _ _) as [m|]; [|done]. cbv zeta.
  repeat case_match; simpl; try done; apply map_Forall_insert_2; auto.
Qed.

Lemma listing_services (h : Host) (chkconfig_path : string) (st : scan) :
  services (ServiceScanService.listing h chkconfig_path st).2 = services st.
Proof.
  unfold ServiceScanService.listing.
  destruct (run_command h chkconfig_path true) as [[rc out] err].
  repeat case_match; done.
Qed.

Lemma chkconfig_records (h : Host) (service_path chkconfig_path : string)
    (st : scan) :
  on_sysv P → map_Forall P (services st) →
  map_Forall P
    (services (ServiceScanService.chkconfig h service_path chkconfig_path st)).
Proof.
  intros HP Hst. unfold ServiceScanService.chkconfig.
  pose proof (listing_services h chkconfig_path st) as Hl.
  destruct (ServiceScanService.listing _ _ _) as [[out err] st'].
  simpl in Hl.
  apply (foldl_preserves _ (λ st, map_Forall P (services st)));
    [|by rewrite Hl].
  intros a line _ Ha. by apply chkconfig_line_records.
Qed.

Lemma service_scan_records (h : Host) (m : gmap string (gmap string pyval)) :
  on_sysv P → on_upstart P →
  svc (ServiceScanService.gather_services h) = Some m → map_Forall P m.
Proof.
  intros Hs Hu. unfold ServiceScanService.gather_services.
  destruct (get_bin_path h "service" []) as [sp|]; [|done].
  destruct (get_bin_path h "chkconfig" []) as [cp|];
    destruct (get_bin_path h "initctl" []) as [ip|];
    simpl; intros [= <-];
    repeat first [ apply chkconfig_records | apply upstart_records
                 | apply sysvinit_records | apply map_Forall_empty | done ].
Qed.

(** With a chkconfig binary, only the chkconfig loop fills the map. *)
Lemma chkconfig_scan_records (h : Host) (chkconfig_path : string)
    (m : gmap string (gmap string pyval)) :
  get_bin_path h "chkconfig" [] = Some chkconfig_path →
  on_sysv P →
  svc (ServiceScanService.gather_services h) = Some m → map_Forall P m.
Proof.
  intros Hc Hs. unfold ServiceScanService.gather_services.
  destruct (get_bin_path h "service" []) as [sp|]; [|done].
  rewrite Hc.
  destruct (get_bin_path h "initctl" []) as [ip|];
    simpl; intros [= <-];
    repeat first [ apply chkconfig_records | apply map_Forall_empty | done ].
Qed.

Lemma systemctl_scan_records (h : Host) (m : gmap string (gmap string pyval)) :
  on_systemd P →
  svc (SystemctlScanService.gather_services h) = Some m → map_Forall P m.
Proof.
  intros HP. unfold SystemctlScanService.gather_services.
  destruct (negb _); [done|].
  destruct (get_bin_path _ _ _) as [path|]; [|done].
  destruct (run_command _ _ _) as [[rc out] err].
  simpl. intros [= <-].
  apply (foldl_preserves _ (λ st, map_Forall P (services st)));
    [|apply map_Forall_empty].
  intros a line _ Ha.
  destruct (systemd_line_cases a line) as [->|(name & state & Hst & ->)];
    [done|].
  apply map_Forall_insert_2; auto.
Qed.
End Records.

(** *** The commands a scanner runs *)

Lemma sysvinit_calls (h : Host) (service_path : string) (st : scan) :
  calls (ServiceScanService.sysvinit h service_path st) =
    calls st ++ [(SysvStatusAll, ServiceScanService.status_all_cmd service_path)].
Proof.
  unfold ServiceScanService.sysvinit.
  destruct (run_command _ _ _) as [[rc out] err].
  apply (foldl_preserves _ (λ a, calls a = _)); [|done].
  intros a line _ Ha.
  by destruct (sysv_line_cases a line) as [->|(name & state & _ & ->)].
Qed.

Lemma upstart_calls (h : Host) (initctl_path : string) (st : scan) :
  calls (ServiceScanService.upstart h initctl_path st) =
    calls st ++ [(InitctlList, initctl_path +:+ " list")].
Proof.
  unfold ServiceScanService.upstart.
  destruct (run_command _ _ _) as [[rc out] err].
  apply (foldl_preserves _ (λ a, calls a = _)); [|done].
  intros a line _ Ha.
  by destruct (upstart_line_cases a line) as [->|(name & state & goal & ->)].
Qed.

(** The parse loop of the chkconfig branch only adds status probes. *)
Lemma chkconfig_loop_calls (h : Host) (service_path : string)
    (lines : list string) (st : scan) :
  ∃ probes : list (site * string),
    calls (foldl (ServiceScanService.chkconfig_line h service_path) st lines)
      = calls st ++ probes
    ∧ Forall (λ c, c.1 = ServiceStatus) probes.
Proof.
  revert st. induction lines as [|line lines IH]; intros st; simpl.
  - exists []. by rewrite app_nil_r.
  - destruct (IH (ServiceScanService.chkconfig_line h service_path st line))
      as (probes & -> & Hprobes).
    rewrite chkconfig_line_eq.
    destruct (Re.match_ _ _) as [m|]; [|by exists probes]. cbv zeta.
    repeat case_match; simpl;
      first [ by exists probes
            | rewrite <- app_assoc; eexists; split; [reflexivity|];
              by constructor ].
Qed.

Lemma match_any_spec (pat : Re.regex) (stdout : string) :
  ServiceScanService.match_any pat stdout = true ↔ matches pat stdout.
Proof.
  unfold ServiceScanService.match_any, matches.
  generalize (PyStr.split_on PyStr.LF stdout). intros l.
  assert (∀ acc,
    foldl (λ (a : bool) line,
             match Re.match_ pat line with Some _ => true | None => a end)
          acc l = true
    ↔ acc = true ∨ Exists (λ line, is_Some (Re.match_ pat line)) l) as H.
  { induction l as [|x l IH]; intros acc; simpl.
    - rewrite Exists_nil. tauto.
    - rewrite IH, Exists_cons.
      destruct (Re.match_ pat x) as [m|].
      + split; [intros _|by left]. right. left. by exists m.
      + split; [tauto|]. intros [?|[[m Hm]|?]]; [tauto|done|tauto]. }
  rewrite H. split; [by intros [?|?]|by right].
Qed.

(** The three ways out of the fallback chain of lines 88-113. *)
Lemma listing_eq (h : Host) (chkconfig_path : string) (st : scan) :
  let base := run_command h chkconfig_path true in
  let rerun (k : site) (flags : string) :=
    let cmd := chkconfig_path +:+ flags in
    (stdout_of (run_command h cmd true), stderr_of (run_command h cmd true),
     Scan (services st) (incomplete st)
          (calls st ++ [(ChkconfigBase, chkconfig_path); (k, cmd)])) in
  ServiceScanService.listing h chkconfig_path st =
    if decide (matches ServiceScanService.p (stdout_of base)) then
      (stdout_of base, stderr_of base,
       Scan (services st) (incomplete st)
            (calls st ++ [(ChkconfigBase, chkconfig_path)]))
    else if decide (matches ServiceScanService.p_simple (stdout_of base)) then
      rerun ChkconfigAllServices " -l --allservices"
    else if PyStr.contains "--list" (stderr_of base) then
      rerun ChkconfigList " --list"
    else
      (stdout_of base, stderr_of base,
       Scan (services st) (incomplete st)
            (calls st ++ [(ChkconfigBase, chkconfig_path)])).
Proof.
  intros base rerun. unfold ServiceScanService.listing. subst rerun base.
  destruct (run_command h chkconfig_path true) as [[rc out] err].
  unfold stdout_of, stderr_of, log. simpl.
  destruct (ServiceScanService.match_any ServiceScanService.p out) eqn:E1.
  { apply match_any_spec in E1. by rewrite decide_True. }
  rewrite decide_False
    by (intros Hm; apply match_any_spec in Hm; congruence).
  destruct (ServiceScanService.match_any ServiceScanService.p_simple out) eqn:E2.
  { apply match_any_spec in E2. rewrite decide_True by done.
    destruct (run_command _ _ _) as [[rc' out'] err']. simpl.
    by rewrite <- app_assoc. }
  rewrite decide_False
    by (intros Hm; apply match_any_spec in Hm; congruence).
  destruct (PyStr.contains _ _); [|done].
  destruct (run_command _ _ _) as [[rc' out'] err']. simpl.
  by rewrite <- app_assoc.
Qed.

Lemma chkconfig_calls (h : Host) (service_path chkconfig_path : string)
    (st : scan) :
  ∃ rest : list (site * string),
    calls (ServiceScanService.chkconfig h service_path chkconfig_path st)
      = calls st ++ (ChkconfigBase, chkconfig_path) :: rest
    ∧ Forall (λ c, c.1 = ChkconfigAllServices ∨ c.1 = ChkconfigList
                   ∨ c.1 = ServiceStatus) rest.
Proof.
  unfold ServiceScanService.chkconfig.
  pose proof (listing_eq h chkconfig_path st) as Hl. cbv zeta in Hl.
  destruct (ServiceScanService.listing _ _ _) as [[out err] st'].
  destruct (chkconfig_loop_calls h service_path
              (PyStr.split_on PyStr.LF out) st') as (probes & -> & Hprobes).
  assert (Forall (λ c : site * string,
            c.1 = ChkconfigAllServices ∨ c.1 = ChkconfigList
            ∨ c.1 = ServiceStatus) probes) as Hp.
  { eapply Forall_impl; [exact Hprobes|]. simpl. auto. }
  repeat case_match; injection Hl as -> -> ->; simpl;
    rewrite <- app_assoc; simpl; eexists; (split; [reflexivity|]);
    first [ exact Hp | apply Forall_cons_2; [simpl; auto|exact Hp] ].
Qed.

Lemma filter_probes (probes : list (site * string)) :
  Forall (λ c, c.1 = ServiceStatus) probes →
  filter (λ c, c.1 ≠ ServiceStatus) probes = [].
Proof.
  induction 1 as [|c l Hc _ IH]; [done|].
  rewrite filter_cons_False; [done|]. by intros ?.
Qed.

(** Only the chkconfig loop raises [incomplete_warning]: the systemd
    scanner never does, and a scanner that returns [None] has not. *)
Lemma systemctl_scan_complete (h : Host) :
  incomplete_warning (SystemctlScanService.gather_services h) = false.
Proof.
  unfold SystemctlScanService.gather_services.
  destruct (negb _); [done|].
  destruct (get_bin_path _ _ _) as [path|]; [|done].
  destruct (run_command _ _ _) as [[rc out] err]. simpl.
  apply (foldl_preserves _ (λ st, incomplete st = false)); [|done].
  intros a line _ Ha.
  by destruct (systemd_line_cases a line) as [->|(name & state & _ & ->)].
Qed.

Lemma service_scan_unavailable (h : Host) :
  svc (ServiceScanService.gather_services h) = None →
  incomplete_warning (ServiceScanService.gather_services h) = false.
Proof.
  unfold ServiceScanService.gather_services.
  by destruct (get_bin_path h "service" []).
Qed.

(** What [main]'s loop leaves in [all_services], in its warning flag and
    in the trace, in terms of the two scanners. *)
Lemma scan_all_eq (h : Host) :
  let first := ServiceScanService.gather_services h in
  let systemd := SystemctlScanService.gather_services h in
  services (scan_all h) = default ∅ (svc systemd) ∪ default ∅ (svc first)
  ∧ incomplete (scan_all h) =
      incomplete_warning first || incomplete_warning systemd
  ∧ calls (scan_all h) = ran first ++ ran systemd.
Proof.
  intros first systemd.
  pose proof (systemctl_scan_complete h) as Hd.
  pose proof (service_scan_unavailable h) as Hf.
  fold systemd in Hd. fold first in Hf.
  unfold scan_all, service_modules, merge. simpl.
  fold first. fold systemd. rewrite Hd.
  destruct (svc first) as [m1|]; destruct (svc systemd) as [m2|]; simpl;
    rewrite ?(left_id_L ∅ (∪)), ?(right_id_L ∅ (∪)), ?Hf by done;
    repeat split; try done;
    by destruct (incomplete_warning first).
Qed.

Lemma scan_all_records (P : string → gmap string pyval → Prop) (h : Host) :
  on_sysv P → on_upstart P → on_systemd P →
  map_Forall P (services (scan_all h)).
Proof.
  intros Hs Hu Hd. rewrite (proj1 (scan_all_eq h)).
  apply map_Forall_union_2.
  - destruct (svc (SystemctlScanService.gather_services h)) eqn:E;
      [by eapply systemctl_scan_records|apply map_Forall_empty].
  - destruct (svc (ServiceScanService.gather_services h)) eqn:E;
      [by eapply service_scan_records|apply map_Forall_empty].
Qed.

(** The two reports of [main], in terms of the two scanners. *)
Lemma main_cases (h : Host) :
  let first := ServiceScanService.gather_services h in
  let systemd := SystemctlScanService.gather_services h in
  let all_services := default ∅ (svc systemd) ∪ default ∅ (svc first) in
  (all_services = ∅ → main h = Skipped FAILED_MSG) ∧
  (all_services ≠ ∅ →
     main h =
       Facts all_services
         (if incomplete_warning first || incomplete_warning systemd
          then Some WARNING_MSG else None)).
Proof.
  intros first systemd all_services.
  destruct (scan_all_eq h) as (Hs & Hi & _).
  fold first in Hs, Hi. fold systemd in Hs, Hi. fold all_services in Hs.
  unfold main, report. rewrite Hs, Hi. split; intros Hall.
  - by rewrite decide_True.
  - by rewrite decide_False.
Qed.

(** *** The SysV status-line parser *)



(** *** The systemd unit-file parser *)



(** *** The merge of [main] *)

(** C1. Where the first scanner and the systemd scanner both have a record
    for a service name, the final services map holds the systemd scanner's
    record, whole. *)
Theorem systemd_record_replaces (h : Host)
    (first systemd : gmap string (gmap string pyval)) (name : string)
    (r1 r2 : gmap string pyval) :
  svc (ServiceScanService.gather_services h) = Some first →
  svc (SystemctlScanService.gather_services h) = Some systemd →
  first !! name = Some r1 →
  systemd !! name = Some r2 →
  ∃ all_services msg,
    main h = Facts all_services msg ∧ all_services !! name = Some r2.
Proof.
  intros Hf Hd H1 H2.
  assert (services (scan_all h) !! name = Some r2) as Hall.
  { rewrite (proj1 (scan_all_eq h)), Hf, Hd. simpl.
    by apply lookup_union_Some_l. }
  exists (services (scan_all h)). eexists. split; [|done].
  unfold main, report. rewrite decide_False; [done|].
  intros Hempty. by rewrite Hempty in Hall.
Qed.

Lemma systemd_record_replaces_witness :
  ∃ all_services msg,
    main Hosts.systemd_host = Facts all_services msg ∧
    all_services !! "cron" = Some (record_of "cron" (PStr "stopped") "systemd").
Proof.
  apply (systemd_record_replaces Hosts.systemd_host
           {[ "cron" := record_of "cron" (PStr "running") "sysv";
              "udev" := record_of "udev" (PStr "running") "sysv" ]}
           {[ "cron" := record_of "cron" (PStr "stopped") "systemd";
              "sshd.service" := record_of "sshd.service" (PStr "running") "systemd" ]}
           "cron" (record_of "cron" (PStr "running") "sysv"));
    vm_compute; reflexivity.
Defined.

(** C6. [main] always produces a report. With an empty accumulator it is
    the skipped report with the fixed message; otherwise it carries the
    services map, and the warning exactly when a scanner's incomplete flag
    is set. *)
Theorem main_report (h : Host) :
  let first := ServiceScanService.gather_services h in
  let systemd := SystemctlScanService.gather_services h in
  let all_services := default ∅ (svc systemd) ∪ default ∅ (svc first) in
  (all_services = ∅ →
     main h = Skipped "Failed to find any services. Sometimes this is due to insufficient privileges.") ∧
  (all_services ≠ ∅ →
     main h =
       Facts all_services
         (if incomplete_warning first || incomplete_warning systemd
          then Some "WARNING: Could not find status for all services. Sometimes this is due to insufficient privileges."
          else None)).
Proof.
  intros first systemd all_services.
  destruct (scan_all_eq h) as (Hs & Hi & _).
  fold first in Hs, Hi. fold systemd in Hs, Hi. fold all_services in Hs.
  unfold main, report. rewrite Hs, Hi. split; intros Hall.
  - by rewrite decide_True.
  - by rewrite decide_False.
Qed.

Lemma main_report_witness :
  main Hosts.bare_host =
    Skipped "Failed to find any services. Sometimes this is due to insufficient privileges."
  ∧ ∃ all_services,
      main Hosts.chkconfig_host =
        Facts all_services
          (Some "WARNING: Could not find status for all services. Sometimes this is due to insufficient privileges.").
Proof.
  split.
  - apply (proj1 (main_report Hosts.bare_host)). reflexivity.
  - eexists. apply (proj2 (main_report Hosts.chkconfig_host)).
    intros Hempty.
    apply (f_equal (λ m : gmap string (gmap string pyval), m !! "crond")) in Hempty.
    vm_compute in Hempty. discriminate.
Defined.

(** *** Invariants of the services maps *)

Lemma coherent_sysv : on_sysv coherent.
Proof. intros name state _. split; [done|by left]. Qed.

Lemma coherent_upstart : on_upstart coherent.
Proof. intros name state goal. split; [done|by right; left]. Qed.

Lemma coherent_systemd : on_systemd coherent.
Proof. intros name state _. split; [done|by right; right]. Qed.

(** C9. In the map either scanner returns and in the merged map of [main],
    the record under a key has that key as its name, and sysv, upstart or
    systemd as its source. *)
Theorem records_coherent (h : Host) :
  (∀ m, svc (ServiceScanService.gather_services h) = Some m →
        map_Forall coherent m) ∧
  (∀ m, svc (SystemctlScanService.gather_services h) = Some m →
        map_Forall coherent m) ∧
  map_Forall coherent (services (scan_all h)) ∧
  (∀ m msg, main h = Facts m msg → map_Forall coherent m).
Proof.
  assert (map_Forall coherent (services (scan_all h))) as Hall
    by (apply scan_all_records;
        auto using coherent_sysv, coherent_upstart, coherent_systemd).
  split; [|split; [|split]].
  - intros m. apply service_scan_records;
      auto using coherent_sysv, coherent_upstart.
  - intros m. apply systemctl_scan_records, coherent_systemd.
  - exact Hall.
  - intros m msg. unfold main, report.
    destruct (decide (services (scan_all h) = ∅)); [done|].
    by intros [= <- _].
Qed.

Lemma records_coherent_witness :
  ∃ r, services (scan_all Hosts.upstart_host) !! "ssh" = Some r ∧ coherent "ssh" r.
Proof.
  eexists. split; [vm_compute; reflexivity|].
  apply (proj1 (proj2 (proj2 (records_coherent Hosts.upstart_host))) "ssh").
  vm_compute. reflexivity.
Defined.

Lemma running_or_stopped_sysv : on_sysv running_or_stopped.
Proof. intros name state [-> | ->]; [by left|by right]. Qed.

(** C10. Every record the chkconfig branch stores has the state running
    or stopped: the exit code that [service_state] holds after the probe
    is replaced on every path that reaches the store. This holds of the
    branch from a fresh scan and of the map [gather_services] returns on a
    host with a chkconfig binary. *)
Theorem chkconfig_state_is_a_word (h : Host) (chkconfig_path : string) :
  (∀ service_path name r,
     services (ServiceScanService.chkconfig h service_path chkconfig_path init)
       !! name = Some r →
     r !! "state" = Some (PStr "running") ∨ r !! "state" = Some (PStr "stopped")) ∧
  (get_bin_path h "chkconfig" [] = Some chkconfig_path →
   ∀ m name r,
     svc (ServiceScanService.gather_services h) = Some m →
     m !! name = Some r →
     r !! "state" = Some (PStr "running") ∨ r !! "state" = Some (PStr "stopped")).
Proof.
  split.
  - intros service_path name r.
    apply (chkconfig_records running_or_stopped h service_path chkconfig_path init
             running_or_stopped_sysv (map_Forall_empty _)).
  - intros Hc m name r Hm.
    apply (chkconfig_scan_records running_or_stopped h chkconfig_path m Hc
             running_or_stopped_sysv Hm).
Qed.

(** On the chkconfig host ntpd is probed and its probe exits with 3: the
    record says stopped. *)
Lemma chkconfig_state_is_a_word_witness :
  ∃ r, svc (ServiceScanService.gather_services Hosts.chkconfig_host)
         ≫= (.!! "ntpd") = Some r
       ∧ r !! "state" = Some (PStr "stopped").
Proof.
  eexists. split; [vm_compute; reflexivity|].
  destruct (proj2 (chkconfig_state_is_a_word Hosts.chkconfig_host "/sbin/chkconfig")
              eq_refl _ "ntpd" _ eq_refl eq_refl) as [Hrun|Hstop].
  - vm_compute in Hrun. discriminate.
  - exact Hstop.
Defined.

(** *** A refused status probe *)

Lemma refused_permission_denied (stderr : string) :
  refused stderr → ServiceScanService.permission_denied stderr = true.
Proof.
  unfold refused, ServiceScanService.permission_denied.
  intros [-> | [-> | ->]]; rewrite ?orb_true_r; reflexivity.
Qed.

Section ChkconfigLoop.
Variables (h : Host) (service_path : string) (lines : list string).

Let step := ServiceScanService.chkconfig_line h service_path.

(** A refused service that is only listed with runlevel 3 on is never
    stored. *)
Lemma loop_skips_refused (name : string) (st : scan) :
  (∀ rl3, listed lines name rl3 → rl3 = "on") →
  rc_of (probe h service_path name) ≠ 0%Z →
  refused (stderr_of (probe h service_path name)) →
  services st !! name = None →
  services (foldl step st lines) !! name = None.
Proof.
  intros Hon Hrc Hrefused.
  apply (foldl_preserves step (λ a, services a !! name = None)).
  intros a line Hline Ha. unfold step. rewrite chkconfig_line_eq.
  destruct (Re.match_ ServiceScanService.p line) as [m|] eqn:Hm; [|done].
  cbv zeta.
  destruct (decide (group m "service" = name)) as [Hname|Hname].
  - assert (group m "rl3" = "on") as ->
      by (apply Hon; by exists line, m).
    rewrite Hname. fold (probe h service_path name). simpl.
    rewrite decide_False by done.
    by rewrite (refused_permission_denied _ Hrefused).
  - repeat case_match; simpl; rewrite ?lookup_insert_ne by done; done.
Qed.

(** A refused service that is listed with runlevel 3 on raises the
    flag, and nothing lowers it. *)
Lemma loop_flags_refused (name : string) (st : scan) :
  listed lines name "on" →
  rc_of (probe h service_path name) ≠ 0%Z →
  refused (stderr_of (probe h service_path name)) →
  incomplete (foldl step st lines) = true.
Proof.
  intros (line & m & Hline & Hm & Hname & Hrl3) Hrc Hrefused.
  apply (foldl_reaches step (λ a, incomplete a = true) lines st line Hline).
  - intros a. unfold step. rewrite chkconfig_line_eq, Hm. cbv zeta.
    rewrite Hrl3, Hname. fold (probe h service_path name). simpl.
    rewrite decide_False by done.
    by rewrite (refused_permission_denied _ Hrefused).
  - intros a y _ Ha. unfold step. rewrite chkconfig_line_eq.
    destruct (Re.match_ ServiceScanService.p y); [|done]. cbv zeta.
    repeat case_match; simpl; done.
Qed.

(** A service that is only listed with runlevel 3 on and whose probe
    exits with 0 ends up stored as running. *)
Lemma loop_stores_running (name : string) (st : scan) :
  listed lines name "on" →
  (∀ rl3, listed lines name rl3 → rl3 = "on") →
  rc_of (probe h service_path name) = 0%Z →
  services (foldl step st lines) !! name
    = Some (record_of name (PStr "running") "sysv").
Proof.
  intros (line & m & Hline & Hm & Hname & Hrl3) Hon Hrc.
  apply (foldl_reaches step
           (λ a, services a !! name
                 = Some (record_of name (PStr "running") "sysv"))
           lines st line Hline).
  - intros a. unfold step. rewrite chkconfig_line_eq, Hm. cbv zeta.
    rewrite Hrl3, Hname. fold (probe h service_path name). simpl.
    rewrite decide_True by done. simpl. apply lookup_insert_eq.
  - intros a y Hy Ha. unfold step. rewrite chkconfig_line_eq.
    destruct (Re.match_ ServiceScanService.p y) as [m'|] eqn:Hm'; [|done].
    cbv zeta.
    destruct (decide (group m' "service" = name)) as [Hname'|Hname'].
    + assert (group m' "rl3" = "on") as ->
        by (apply Hon; by exists y, m').
      rewrite Hname'. fold (probe h service_path name). simpl.
      rewrite decide_True by done. simpl. apply lookup_insert_eq.
    + repeat case_match; simpl; rewrite ?lookup_insert_ne by done; done.
Qed.
End ChkconfigLoop.

(** With the service and chkconfig binaries, what [gather_services]
    returns is the chkconfig parse loop over the listing. *)
Lemma gather_chkconfig (h : Host) (service_path chkconfig_path : string) :
  get_bin_path h "service" [] = Some service_path →
  get_bin_path h "chkconfig" [] = Some chkconfig_path →
  ∃ st0,
    services st0 = ∅ ∧
    let st := foldl (ServiceScanService.chkconfig_line h service_path) st0
                    (listing_lines h chkconfig_path) in
    ServiceScanService.gather_services h
      = Outcome (Some (services st)) (incomplete st) (calls st).
Proof.
  intros Hs Hc. unfold ServiceScanService.gather_services, listing_lines.
  rewrite Hs, Hc. unfold ServiceScanService.chkconfig.
  pose proof (listing_services h chkconfig_path init) as Hl.
  destruct (ServiceScanService.listing h chkconfig_path init)
    as [[out err] st0].
  exists st0. split; [exact Hl|].
  by destruct (get_bin_path h "initctl" []).
Qed.

Lemma listed_runlevel3 (lines : list string) (name rl3 : string) :
  listed lines name rl3 ↔ rl3 ∈ runlevel3 lines name.
Proof.
  unfold listed, runlevel3. rewrite list_elem_of_omap. split.
  - intros (line & m & Hline & Hm & Hname & Hrl3).
    exists line. split; [done|]. rewrite Hm. simpl.
    rewrite decide_True by done. by rewrite Hrl3.
  - intros (line & Hline & Hf). exists line.
    destruct (Re.match_ ServiceScanService.p line) as [m|]; [|done].
    simpl in Hf. exists m. case_decide; [|done].
    injection Hf as <-. done.
Qed.

(** A tactic for concrete listings: [listed] read off the computed
    runlevel-3 column. *)
Ltac column H :=
  first
    [ apply listed_runlevel3; rewrite H; repeat constructor
    | let rl3 := fresh "rl3" in
      let Hin := fresh "Hin" in
      intros rl3 Hin%listed_runlevel3; rewrite H in Hin;
      repeat (apply elem_of_cons in Hin as [Hin|Hin]; [exact Hin|]);
      by apply elem_of_nil in Hin ].

(** *** The chkconfig fallback chain *)

(** C5. On a host with the service and chkconfig binaries: when no line of
    the plain listing matches the seven-runlevel pattern but some line
    matches the two-column pattern, the listing is run once more with
    [-l --allservices], and only so, and the parse loop reads that output;
    when neither pattern matches a line and the stderr of the plain listing
    contains [--list], the listing is run once more with [--list], and only
    so, and the parse loop reads that output. The parse loop is the one of
    the seven-runlevel pattern. *)
Theorem chkconfig_fallback_chain (h : Host) (service_path chkconfig_path : string) :
  get_bin_path h "service" [] = Some service_path →
  get_bin_path h "chkconfig" [] = Some chkconfig_path →
  let base := run_command h chkconfig_path true in
  let parsed (k : site) (flags : string) : scan :=
    let cmd := chkconfig_path +:+ flags in
    foldl (ServiceScanService.chkconfig_line h service_path)
          (Scan ∅ false [(ChkconfigBase, chkconfig_path); (k, cmd)])
          (PyStr.split_on PyStr.LF (stdout_of (run_command h cmd true))) in
  let listings (o : outcome) := filter (λ c, c.1 ≠ ServiceStatus) (ran o) in
  let result := ServiceScanService.gather_services h in
  (¬ matches ServiceScanService.p (stdout_of base) →
   matches ServiceScanService.p_simple (stdout_of base) →
   let st := parsed ChkconfigAllServices " -l --allservices" in
   result = Outcome (Some (services st)) (incomplete st) (calls st)
   ∧ listings result =
       [ (ChkconfigBase, chkconfig_path);
         (ChkconfigAllServices, chkconfig_path +:+ " -l --allservices") ])
  ∧
  (¬ matches ServiceScanService.p (stdout_of base) →
   ¬ matches ServiceScanService.p_simple (stdout_of base) →
   PyStr.contains "--list" (stderr_of base) = true →
   let st := parsed ChkconfigList " --list" in
   result = Outcome (Some (services st)) (incomplete st) (calls st)
   ∧ listings result =
       [ (ChkconfigBase, chkconfig_path);
         (ChkconfigList, chkconfig_path +:+ " --list") ]).
Proof.
  intros Hs Hc base parsed listings result.
  assert (∀ k flags,
    filter (λ c : site * string, c.1 ≠ ServiceStatus) (calls (parsed k flags))
      = [ (ChkconfigBase, chkconfig_path); (k, chkconfig_path +:+ flags) ]
    ∨ k = ServiceStatus) as Hfilter.
  { intros k flags. destruct (decide (k = ServiceStatus)) as [|Hk]; [by right|left].
    unfold parsed. cbv zeta.
    destruct (chkconfig_loop_calls h service_path
      (PyStr.split_on PyStr.LF
         (stdout_of (run_command h (chkconfig_path +:+ flags) true)))
      (Scan ∅ false [(ChkconfigBase, chkconfig_path);
                     (k, chkconfig_path +:+ flags)]))
      as (probes & -> & Hprobes).
    simpl. rewrite !filter_cons_True by done.
    by rewrite (filter_probes _ Hprobes). }
  assert (result =
    let '(out, err, st) := ServiceScanService.listing h chkconfig_path init in
    let st' := foldl (ServiceScanService.chkconfig_line h service_path) st
                     (PyStr.split_on PyStr.LF out) in
    Outcome (Some (services st')) (incomplete st') (calls st')) as Hres.
  { unfold result, ServiceScanService.gather_services. rewrite Hs, Hc.
    unfold ServiceScanService.chkconfig.
    by destruct (get_bin_path h "initctl" []);
      destruct (ServiceScanService.listing _ _ _) as [[out err] st]. }
  rewrite listing_eq in Hres. cbv zeta in Hres. fold base in Hres.
  split.
  - intros Hp Hsimple st.
    rewrite decide_False, decide_True in Hres by done.
    simpl in Hres. fold (parsed ChkconfigAllServices " -l --allservices") in Hres.
    fold st in Hres. split; [done|].
    unfold listings. rewrite Hres. simpl.
    by destruct (Hfilter ChkconfigAllServices " -l --allservices").
  - intros Hp Hsimple Hlist st.
    rewrite !decide_False, Hlist in Hres by done.
    simpl in Hres. fold (parsed ChkconfigList " --list") in Hres.
    fold st in Hres. split; [done|].
    unfold listings. rewrite Hres. simpl.
    by destruct (Hfilter ChkconfigList " --list").
Qed.

Lemma chkconfig_fallback_chain_witness :
  filter (λ c, c.1 ≠ ServiceStatus)
         (ran (ServiceScanService.gather_services Hosts.suse_host))
    = [ (ChkconfigBase, "/sbin/chkconfig");
        (ChkconfigAllServices, "/sbin/chkconfig -l --allservices") ]
  ∧ filter (λ c, c.1 ≠ ServiceStatus)
           (ran (ServiceScanService.gather_services Hosts.rhel5_host))
    = [ (ChkconfigBase, "/sbin/chkconfig");
        (ChkconfigList, "/sbin/chkconfig --list") ].
Proof.
  split.
  - apply (proj1 (chkconfig_fallback_chain Hosts.suse_host
                    "/sbin/service" "/sbin/chkconfig" eq_refl eq_refl)).
    + intros Hm%match_any_spec. vm_compute in Hm. discriminate.
    + apply match_any_spec. vm_compute. reflexivity.
  - apply (proj2 (chkconfig_fallback_chain Hosts.rhel5_host
                    "/sbin/service" "/sbin/chkconfig" eq_refl eq_refl)).
    + intros Hm%match_any_spec. vm_compute in Hm. discriminate.
    + intros Hm%match_any_spec. vm_compute in Hm. discriminate.
    + vm_compute. reflexivity.
Defined.

(** *** Which backend runs *)

(** A site that is not in a given list of sites. *)
Ltac absent :=
  let H := fresh in
  intros H;
  repeat (apply elem_of_cons in H as [H|H]; [discriminate|]);
  by apply elem_of_nil in H.

(** C3, as the code has it. The Upstart listing runs exactly when the
    service and initctl binaries exist and chkconfig does not; the
    chkconfig listing runs exactly when the service and chkconfig binaries
    exist. Without the service binary the scanner returns before either
    test. *)
Theorem backend_applicability (h : Host) :
  let present (name : string) := is_Some (get_bin_path h name []) in
  (runs InitctlList h ↔
     present "service" ∧ present "initctl" ∧ ¬ present "chkconfig") ∧
  (runs ChkconfigBase h ↔ present "service" ∧ present "chkconfig") ∧
  (¬ present "service" →
     ServiceScanService.gather_services h = Outcome None false []).
Proof.
  intros present. unfold runs, present, ServiceScanService.gather_services.
  destruct (get_bin_path h "service" []) as [sp|].
  2:{ simpl. split; [|split; [|done]].
      - split; [by intros ?%elem_of_nil|]. by intros ([? [=]] & _).
      - split; [by intros ?%elem_of_nil|]. by intros ([? [=]] & _). }
  destruct (get_bin_path h "chkconfig" []) as [cp|].
  - assert (∀ ip : option string,
      ∃ rest, calls (match ip with
                     | Some _ => ServiceScanService.chkconfig h sp cp init
                     | None => ServiceScanService.chkconfig h sp cp init
                     end) = (ChkconfigBase, cp) :: rest
              ∧ Forall (λ c : site * string,
                  c.1 = ChkconfigAllServices ∨ c.1 = ChkconfigList
                  ∨ c.1 = ServiceStatus) rest) as Hcalls.
    { intros ip. destruct (chkconfig_calls h sp cp init) as (rest & E & Hrest).
      exists rest. by destruct ip. }
    destruct (Hcalls (get_bin_path h "initctl" [])) as (rest & E & Hrest).
    simpl. rewrite E. simpl. split; [|split].
    + split.
      * intros [[=]|Hin]%elem_of_cons.
        apply list_elem_of_fmap in Hin as (c & Hc & Hin).
        rewrite Forall_forall in Hrest.
        apply Hrest in Hin. rewrite <- Hc in Hin.
        by destruct Hin as [?|[?|?]].
      * intros (_ & _ & Hno). destruct Hno. by eexists.
    + split; [intros _|intros _; by left]. split; by eexists.
    + intros Hno. destruct Hno. by eexists.
  - destruct (get_bin_path h "initctl" []) as [ip|]; simpl;
      rewrite ?upstart_calls, sysvinit_calls; simpl; (split; [|split]).
    + split; [intros _|intros _; by right; left].
      split; [by eexists|]. split; [by eexists|]. by intros [? [=]].
    + split; [absent|]. by intros (_ & [? [=]]).
    + intros Hno. destruct Hno. by eexists.
    + split; [absent|]. by intros (_ & [? [=]] & _).
    + split; [absent|]. by intros (_ & [? [=]]).
    + intros Hno. destruct Hno. by eexists.
Qed.

(** On the Upstart host the initctl listing runs and the chkconfig
    listing does not. *)
Lemma backend_applicability_witness :
  runs InitctlList Hosts.upstart_host ∧ ¬ runs ChkconfigBase Hosts.upstart_host.
Proof.
  split.
  - apply (proj1 (backend_applicability Hosts.upstart_host)).
    split; [by eexists|]. split; [by eexists|]. by intros [? [=]].
  - intros Hr.
    apply (proj1 (proj2 (backend_applicability Hosts.upstart_host))) in Hr.
    by destruct Hr as (_ & [? [=]]).
Defined.

(** C3 as it is worded fails: with initctl and without chkconfig the
    Upstart listing does not run when the service binary is missing, and
    with chkconfig the chkconfig listing does not run when the service
    binary is missing. *)
Lemma applicability_depends_on_service :
  ¬ (runs InitctlList Hosts.initctl_only_host ↔
       is_Some (get_bin_path Hosts.initctl_only_host "initctl" [])
       ∧ ¬ is_Some (get_bin_path Hosts.initctl_only_host "chkconfig" []))
  ∧ ¬ (runs ChkconfigBase Hosts.chkconfig_only_host ↔
         is_Some (get_bin_path Hosts.chkconfig_only_host "chkconfig" [])).
Proof.
  split.
  - intros [_ Hrun].
    assert (runs InitctlList Hosts.initctl_only_host) as Hin.
    { apply Hrun. split; [by eexists|]. by intros [? [=]]. }
    vm_compute in Hin. by apply elem_of_nil in Hin.
  - intros [_ Hrun].
    assert (runs ChkconfigBase Hosts.chkconfig_only_host) as Hin.
    { apply Hrun. by eexists. }
    vm_compute in Hin. by apply elem_of_nil in Hin.
Qed.

(** *** The Upstart list parser *)

(** C2. The Upstart line [ssh start/running, process 1234] matches with
    the pid captured, yet
    the record stored for it has the name, state, goal and source and no
    pid, also in the report of [main]. For every matching line the record
    stored under the captured name has the captured goal and state, and no
    pid. *)
Theorem upstart_record_lacks_pid :
  let line := "ssh start/running, process 1234" in
  let payload : gmap string pyval :=
    {[ "name" := PStr "ssh"; "state" := PStr "running";
       "goal" := PStr "start"; "source" := PStr "upstart" ]} in
  (ServiceScanService.pid_of <$> Re.match_ ServiceScanService.upstart_p line
     = Some (Some "1234"))
  ∧ services (ServiceScanService.upstart_line init line) = {[ "ssh" := payload ]}
  ∧ payload !! "pid" = None
  ∧ (∃ all_services msg,
       main Hosts.upstart_host = Facts all_services msg
       ∧ all_services !! "ssh" = Some payload)
  ∧ (∀ st line' m,
       Re.match_ ServiceScanService.upstart_p line' = Some m →
       ∃ name goal state r,
         m !! "name" = Some name ∧ m !! "goal" = Some goal
         ∧ m !! "state" = Some state
         ∧ services (ServiceScanService.upstart_line st line') !! name = Some r
         ∧ r !! "goal" = Some (PStr goal)
         ∧ r !! "state" = Some (PStr state)
         ∧ r !! "pid" = None).
Proof.
  intros line payload.
  split; [vm_compute; reflexivity|].
  split; [vm_compute; reflexivity|].
  split; [vm_compute; reflexivity|].
  split.
  - assert (services (scan_all Hosts.upstart_host) !! "ssh" = Some payload)
      as Hssh by (vm_compute; reflexivity).
    exists (services (scan_all Hosts.upstart_host)). eexists.
    split; [|exact Hssh].
    unfold main, report. rewrite decide_False; [reflexivity|].
    intros Hempty. rewrite Hempty in Hssh. discriminate Hssh.
  - intros st line' m Hm.
    exists (group m "name"), (group m "goal"), (group m "state"). eexists.
    split; [by apply (group_bound ServiceScanService.upstart_p line')|].
    split; [by apply (group_bound ServiceScanService.upstart_p line')|].
    split; [by apply (group_bound ServiceScanService.upstart_p line')|].
    unfold ServiceScanService.upstart_line. rewrite Hm.
    split; [apply lookup_insert_eq|]. done.
Qed.

(** ** Further properties *)

(** *** Two facts about the chkconfig host *)

Lemma chkconfig_host_scan :
  svc (ServiceScanService.gather_services Hosts.chkconfig_host)
    = Some chkconfig_host_map.
Proof. vm_compute. reflexivity. Qed.

Lemma chkconfig_host_vault :
  runlevel3 (listing_lines Hosts.chkconfig_host "/sbin/chkconfig") "vault" = ["on"].
Proof. vm_compute. reflexivity. Qed.

(** *** The last writer wins *)

Lemma omap_pointwise {A B : Type} (f g : A → option B) (l : list A) :
  (∀ x, f x = g x) → omap f l = omap g l.
Proof.
  intros Hfg. induction l as [|x l IH]; [done|].
  csimpl. by rewrite Hfg, IH.
Qed.

Section LastWriter.
Context {B : Type} (step : scan → B → scan).
Context (entry : B → option (string * gmap string pyval)).
Hypothesis step_stores :
  ∀ st x, services (step st x) =
          match entry x with
          | Some (k, r) => <[k := r]> (services st)
          | None => services st
          end.

(** After a loop whose iterations store at most one record each, the
    record under a name is the one of the last iteration that stored under
    it, or else the one that was there before the loop. *)
Lemma foldl_last_writer (lines : list B) (st : scan) (name : string) :
  services (foldl step st lines) !! name =
    match last (omap (stored_under entry name) lines) with
    | Some r => Some r
    | None => services st !! name
    end.
Proof.
  induction lines as [|x lines IH] using rev_ind; [done|].
  rewrite foldl_app, omap_app. simpl. rewrite step_stores.
  unfold stored_under at 2. destruct (entry x) as [[k r]|]; simpl.
  - destruct (decide (k = name)) as [->|Hk]; simpl.
    + by rewrite last_snoc, lookup_insert_eq.
    + by rewrite app_nil_r, lookup_insert_ne.
  - by rewrite app_nil_r.
Qed.
End LastWriter.

(** *** The systemd scanner, as a whole *)

(** X1. The map of the systemd scanner has, under a unit name, the record
    that the last two-token line naming the unit gives: running when its
    value is [enabled], stopped otherwise; a unit that no such line names
    has no record. *)
Theorem systemd_map_lookup (h : Host) (systemctl_path : string)
    (m : gmap string (gmap string pyval)) (unit : string) :
  get_bin_path h "systemctl" ["/usr/bin"; "/usr/local/bin"] = Some systemctl_path →
  svc (SystemctlScanService.gather_services h) = Some m →
  let lines :=
    PyStr.split_on PyStr.LF
      (stdout_of (run_command h (list_unit_files_cmd systemctl_path) true)) in
  m !! unit =
    (λ v, record_of unit
            (PStr (if decide (v = "enabled") then "running" else "stopped"))
            "systemd")
    <$> enablement lines unit.
Proof.
  intros Hpath. unfold SystemctlScanService.gather_services.
  destruct (negb _); [done|]. rewrite Hpath.
  fold (list_unit_files_cmd systemctl_path).
  destruct (run_command h (list_unit_files_cmd systemctl_path) true)
    as [[rc out] err].
  simpl. intros [= <-].
  pose (entry := λ line : string,
    match PyStr.split line with
    | [u; v] =>
        Some (u, record_of u
                   (PStr (if decide (v = "enabled") then "running" else "stopped"))
                   "systemd")
    | _ => None
    end).
  rewrite (foldl_last_writer SystemctlScanService.systemd_line entry).
  - unfold enablement.
    rewrite (omap_pointwise (stored_under entry unit)
               (λ line,
                  (λ v, record_of unit
                          (PStr (if decide (v = "enabled") then "running"
                                 else "stopped")) "systemd")
                  <$> match PyStr.split line with
                      | [u; v] => if decide (u = unit) then Some v else None
                      | _ => None
                      end)).
    + rewrite <- list_fmap_omap, fmap_last. by destruct (last _).
    + intros line. unfold stored_under, entry.
      destruct (PyStr.split line) as [|u [|v [|w l]]]; try done.
      by destruct (decide (u = unit)) as [->|?].
  - intros st line. unfold SystemctlScanService.systemd_line, entry.
    destruct (PyStr.split line) as [|u [|v [|w l]]]; try done.
    unfold item. simpl.
    destruct (String.eqb_spec v "enabled") as [->|Hne].
    + by rewrite decide_True.
    + by rewrite decide_False.
Qed.

Lemma systemd_map_lookup_witness :
  ∃ m, svc (SystemctlScanService.gather_services Hosts.relisted_units_host) = Some m
       ∧ m !! "sshd.service"
         = Some (record_of "sshd.service" (PStr "stopped") "systemd")
       ∧ m !! "2" = None.
Proof.
  assert (∃ m, svc (SystemctlScanService.gather_services Hosts.relisted_units_host)
               = Some m) as [m Hm] by (eexists; vm_compute; reflexivity).
  exists m. split; [exact Hm|]. split.
  - rewrite (systemd_map_lookup Hosts.relisted_units_host "/usr/bin/systemctl" m
               "sshd.service" eq_refl Hm).
    vm_compute. reflexivity.
  - rewrite (systemd_map_lookup Hosts.relisted_units_host "/usr/bin/systemctl" m
               "2" eq_refl Hm).
    vm_compute. reflexivity.
Defined.

(** Without chkconfig, what [gather_services] returns is the Upstart loop
    (with an initctl binary) run after the sysv loop, on the same scan. *)
Lemma gather_sysv_upstart (h : Host) (service_path : string) :
  get_bin_path h "service" [] = Some service_path →
  get_bin_path h "chkconfig" [] = None →
  ∃ st1 st2,
    services st1 = ∅ ∧ incomplete st1 = false ∧
    services st2 =
      services (foldl ServiceScanService.sysv_line st1 (status_lines h service_path)) ∧
    incomplete st2 =
      incomplete (foldl ServiceScanService.sysv_line st1 (status_lines h service_path)) ∧
    let st := foldl ServiceScanService.upstart_line st2 (job_lines h) in
    svc (ServiceScanService.gather_services h) = Some (services st)
    ∧ incomplete_warning (ServiceScanService.gather_services h) = incomplete st.
Proof.
  intros Hs Hc. unfold ServiceScanService.gather_services, job_lines, status_lines.
  rewrite Hs, Hc. unfold ServiceScanService.sysvinit.
  destruct (run_command h (ServiceScanService.status_all_cmd service_path) true)
    as [[rc out] err]. unfold stdout_of. simpl.
  destruct (get_bin_path h "initctl" []) as [ip|].
  - unfold ServiceScanService.upstart.
    destruct (run_command h (ip +:+ " list") false) as [[rc' out'] err'].
    simpl.
    exists (log SysvStatusAll (ServiceScanService.status_all_cmd service_path) init),
      (log InitctlList (ip +:+ " list")
         (foldl ServiceScanService.sysv_line
            (log SysvStatusAll (ServiceScanService.status_all_cmd service_path) init)
            (PyStr.split_on PyStr.LF out))).
    done.
  - simpl.
    exists (log SysvStatusAll (ServiceScanService.status_all_cmd service_path) init),
      (foldl ServiceScanService.sysv_line
         (log SysvStatusAll (ServiceScanService.status_all_cmd service_path) init)
         (PyStr.split_on PyStr.LF out)).
    done.
Qed.

Lemma sysv_line_stores (st : scan) (line : string) :
  services (ServiceScanService.sysv_line st line) =
    match (let tokens := PyStr.split line in
           if (length tokens <? 4)%nat then None
           else
             let name := PyStr.join " " (drop 3 tokens) in
             Some (name,
                   record_of name
                     (PStr (if decide (item tokens 1 = "+") then "running"
                            else "stopped")) "sysv")) with
    | Some (k, r) => <[k := r]> (services st)
    | None => services st
    end.
Proof.
  unfold ServiceScanService.sysv_line. cbv zeta.
  destruct (length (PyStr.split line) <? 4)%nat; [done|]. simpl.
  destruct (String.eqb_spec (item (PyStr.split line) 1) "+") as [->|Hne].
  - by rewrite decide_True.
  - by rewrite decide_False.
Qed.

Lemma upstart_line_stores (st : scan) (line : string) :
  services (ServiceScanService.upstart_line st line) =
    match (m ← Re.match_ ServiceScanService.upstart_p line;
           Some (group m "name",
                 ({[ "name" := PStr (group m "name");
                     "state" := PStr (group m "state");
                     "goal" := PStr (group m "goal");
                     "source" := PStr "upstart" ]} : gmap string pyval))) with
    | Some (k, r) => <[k := r]> (services st)
    | None => services st
    end.
Proof.
  unfold ServiceScanService.upstart_line.
  by destruct (Re.match_ ServiceScanService.upstart_p line).
Qed.

(** X2. On a host with the service binary and without chkconfig, the map of
    the first scanner has, under a name: the record of the last Upstart
    line with that name, if there is one; else the record of the last sysv
    line with that name, if there is one; else nothing. *)
Theorem sysv_upstart_map_lookup (h : Host) (service_path : string)
    (m : gmap string (gmap string pyval)) (name : string) :
  get_bin_path h "service" [] = Some service_path →
  get_bin_path h "chkconfig" [] = None →
  svc (ServiceScanService.gather_services h) = Some m →
  m !! name =
    match upstart_job (job_lines h) name with
    | Some g =>
        Some {[ "name" := PStr name; "state" := PStr (group g "state");
                "goal" := PStr (group g "goal"); "source" := PStr "upstart" ]}
    | None =>
        (λ mark, record_of name
                   (PStr (if decide (mark = "+") then "running" else "stopped"))
                   "sysv")
        <$> sysv_mark (status_lines h service_path) name
    end.
Proof.
  intros Hs Hc.
  destruct (gather_sysv_upstart h service_path Hs Hc)
    as (st1 & st2 & H1 & _ & H2 & _ & Hsvc & _).
  cbv zeta in Hsvc. rewrite Hsvc. intros [= <-].
  rewrite (foldl_last_writer _ _ upstart_line_stores), H2.
  rewrite (foldl_last_writer _ _ sysv_line_stores), H1, lookup_empty.
  unfold upstart_job, sysv_mark.
  rewrite (omap_pointwise (stored_under _ name)
             (λ line,
                (λ g : gmap string string,
                   ({[ "name" := PStr name; "state" := PStr (group g "state");
                       "goal" := PStr (group g "goal");
                       "source" := PStr "upstart" ]} : gmap string pyval))
                <$> (m ← Re.match_ ServiceScanService.upstart_p line;
                     if decide (group m "name" = name) then Some m else None))).
  2:{ intros line. unfold stored_under.
      destruct (Re.match_ ServiceScanService.upstart_p line) as [g|]; [|done].
      simpl. by destruct (decide (group g "name" = name)) as [<-|?]. }
  rewrite <- list_fmap_omap, fmap_last.
  destruct (last (omap _ (job_lines h))) as [g|]; [done|]. simpl.
  rewrite (omap_pointwise (stored_under _ name)
             (λ line,
                (λ mark, record_of name
                   (PStr (if decide (mark = "+") then "running" else "stopped"))
                   "sysv")
                <$> (let tokens := PyStr.split line in
                     if decide ((4 ≤ length tokens)%nat
                                ∧ PyStr.join " " (drop 3 tokens) = name)
                     then tokens !! 1 else None))).
  2:{ intros line. unfold stored_under. cbv zeta.
      destruct (Nat.ltb_spec (length (PyStr.split line)) 4) as [Hlt|Hge].
      - rewrite decide_False; [done|]. intros [? _]. lia.
      - destruct (decide (PyStr.join " " (drop 3 (PyStr.split line)) = name))
          as [Hn|Hn].
        + destruct (decide ((4 ≤ length (PyStr.split line))%nat
                            ∧ PyStr.join " " (drop 3 (PyStr.split line)) = name))
            as [_|Hno]; [|by destruct Hno].
          rewrite (item_in_range (PyStr.split line) 1) by lia.
          simpl. by rewrite Hn.
        + destruct (decide ((4 ≤ length (PyStr.split line))%nat
                            ∧ PyStr.join " " (drop 3 (PyStr.split line)) = name))
            as [[_ Hyes]|_]; done. }
  rewrite <- list_fmap_omap, fmap_last. by destruct (last _).
Qed.

Lemma sysv_upstart_map_lookup_witness :
  ∃ m, svc (ServiceScanService.gather_services Hosts.shared_name_host) = Some m
       ∧ m !! "ssh"
         = Some {[ "name" := PStr "ssh"; "state" := PStr "running";
                   "goal" := PStr "start"; "source" := PStr "upstart" ]}
       ∧ m !! "my svc" = Some (record_of "my svc" (PStr "stopped") "sysv").
Proof.
  assert (∃ m, svc (ServiceScanService.gather_services Hosts.shared_name_host)
               = Some m) as [m Hm] by (eexists; vm_compute; reflexivity).
  exists m. split; [exact Hm|]. split.
  - rewrite (sysv_upstart_map_lookup Hosts.shared_name_host "/usr/sbin/service" m
               "ssh" eq_refl eq_refl Hm).
    vm_compute. reflexivity.
  - rewrite (sysv_upstart_map_lookup Hosts.shared_name_host "/usr/sbin/service" m
               "my svc" eq_refl eq_refl Hm).
    vm_compute. reflexivity.
Defined.

Lemma omap_omap {A B C : Type} (f : A → option B) (g : B → option C)
    (l : list A) :
  omap g (omap f l) = omap (λ x, f x ≫= g) l.
Proof.
  induction l as [|x l IH]; [done|].
  csimpl. destruct (f x) as [y|]; csimpl; [|done].
  destruct (g y); by rewrite IH.
Qed.

Lemma permission_denied_refused (stderr : string) :
  ServiceScanService.permission_denied stderr = true ↔ refused stderr.
Proof.
  unfold refused, ServiceScanService.permission_denied.
  rewrite !orb_true_iff. tauto.
Qed.

Lemma chkconfig_line_stores (h : Host) (service_path : string) (st : scan)
    (line : string) :
  services (ServiceScanService.chkconfig_line h service_path st line) =
    match (m ← Re.match_ ServiceScanService.p line;
           (λ state, (group m "service",
                      record_of (group m "service") (PStr state) "sysv"))
           <$> chkconfig_state h service_path (group m "service") (group m "rl3")) with
    | Some (k, r) => <[k := r]> (services st)
    | None => services st
    end.
Proof.
  rewrite chkconfig_line_eq.
  destruct (Re.match_ ServiceScanService.p line) as [m|]; [|done].
  cbv zeta. unfold chkconfig_state. simpl.
  fold (probe h service_path (group m "service")).
  destruct (String.eqb_spec (group m "rl3") "on") as [Hon|Hoff].
  - rewrite (decide_True (P := group m "rl3" = "on")) by done.
    destruct (decide (rc_of (probe h service_path (group m "service")) = 0%Z));
      [done|].
    destruct (ServiceScanService.permission_denied _) eqn:Hp.
    + apply permission_denied_refused in Hp. by rewrite decide_True.
    + rewrite decide_False; [done|].
      intros Hr%permission_denied_refused. congruence.
  - by rewrite (decide_False (P := group m "rl3" = "on")).
Qed.

(** After the chkconfig loop, the record under a name is the one of the
    last line for that name that stores one, or else what was there. *)
Lemma chkconfig_loop_lookup (h : Host) (service_path : string)
    (lines : list string) (st : scan) (name : string) :
  services (foldl (ServiceScanService.chkconfig_line h service_path) st lines)
    !! name =
    match last (omap (chkconfig_state h service_path name)
                     (runlevel3 lines name)) with
    | Some state => Some (record_of name (PStr state) "sysv")
    | None => services st !! name
    end.
Proof.
  rewrite (foldl_last_writer _ _ (chkconfig_line_stores h service_path)).
  unfold runlevel3. rewrite omap_omap.
  rewrite (omap_pointwise (stored_under _ name)
             (λ line,
                (λ state, record_of name (PStr state) "sysv")
                <$> ((m ← Re.match_ ServiceScanService.p line;
                      if decide (group m "service" = name)
                      then Some (group m "rl3") else None)
                     ≫= chkconfig_state h service_path name))).
  { rewrite <- list_fmap_omap, fmap_last. by destruct (last _). }
  intros line. unfold stored_under.
  destruct (Re.match_ ServiceScanService.p line) as [g|]; [|done]. simpl.
  destruct (decide (group g "service" = name)) as [->|Hne]; simpl.
  - destruct (chkconfig_state _ _ _ _); simpl; [|done].
    by rewrite decide_True.
  - destruct (chkconfig_state _ _ _ _); simpl; [|done].
    by rewrite decide_False.
Qed.

(** X3. On a host with the service and chkconfig binaries, the map of the
    first scanner has, under a name, the record of the last listing line
    for that name that stores one: stopped when the line has runlevel 3
    off, running when the probe exits with 0, stopped when it fails
    otherwise; a line whose probe is refused stores nothing. *)
Theorem chkconfig_map_lookup (h : Host) (service_path chkconfig_path : string)
    (m : gmap string (gmap string pyval)) (name : string) :
  get_bin_path h "service" [] = Some service_path →
  get_bin_path h "chkconfig" [] = Some chkconfig_path →
  svc (ServiceScanService.gather_services h) = Some m →
  m !! name =
    (λ state, record_of name (PStr state) "sysv")
    <$> last (omap (chkconfig_state h service_path name)
                   (runlevel3 (listing_lines h chkconfig_path) name)).
Proof.
  intros Hs Hc.
  destruct (gather_chkconfig h service_path chkconfig_path Hs Hc)
    as (st0 & Hst0 & Hgather).
  cbv zeta in Hgather. rewrite Hgather. simpl. intros [= <-].
  rewrite chkconfig_loop_lookup, Hst0, lookup_empty.
  by destruct (last _).
Qed.

Lemma chkconfig_map_lookup_witness :
  chkconfig_host_map !! "ntpd" = Some (record_of "ntpd" (PStr "stopped") "sysv")
  ∧ chkconfig_host_map !! "vault" = None.
Proof.
  split.
  - rewrite (chkconfig_map_lookup Hosts.chkconfig_host "/sbin/service"
               "/sbin/chkconfig" chkconfig_host_map "ntpd"
               eq_refl eq_refl chkconfig_host_scan).
    vm_compute. reflexivity.
  - rewrite (chkconfig_map_lookup Hosts.chkconfig_host "/sbin/service"
               "/sbin/chkconfig" chkconfig_host_map "vault"
               eq_refl eq_refl chkconfig_host_scan).
    vm_compute. reflexivity.
Defined.

(** X4. The chkconfig loop leaves a listed service out of the map only for
    a refused probe: a service that some line of the listing names and that
    has no record is listed with runlevel 3 on, and its probe exits non-zero
    with a stderr that has one of the three marks. *)
Theorem listed_service_missing_only_if_refused (h : Host)
    (service_path chkconfig_path : string)
    (m : gmap string (gmap string pyval)) (name rl3 : string) :
  get_bin_path h "service" [] = Some service_path →
  get_bin_path h "chkconfig" [] = Some chkconfig_path →
  svc (ServiceScanService.gather_services h) = Some m →
  listed (listing_lines h chkconfig_path) name rl3 →
  m !! name = None →
  rl3 = "on"
  ∧ rc_of (probe h service_path name) ≠ 0%Z
  ∧ refused (stderr_of (probe h service_path name))
  ∧ incomplete_warning (ServiceScanService.gather_services h) = true.
Proof.
  intros Hs Hc.
  destruct (gather_chkconfig h service_path chkconfig_path Hs Hc)
    as (st0 & Hst0 & Hgather).
  cbv zeta in Hgather. rewrite Hgather. simpl. intros [= <-] Hlisted.
  rewrite chkconfig_loop_lookup.
  destruct (last _) as [state|] eqn:Hlast; [done|]. intros _.
  apply last_None in Hlast.
  assert (chkconfig_state h service_path name rl3 = None) as Hstate.
  { apply listed_runlevel3 in Hlisted.
    destruct (chkconfig_state h service_path name rl3) as [state|] eqn:E;
      [|done].
    assert (state ∈ omap (chkconfig_state h service_path name)
                      (runlevel3 (listing_lines h chkconfig_path) name)) as Hin
      by (apply list_elem_of_omap; eauto).
    rewrite Hlast in Hin. by apply elem_of_nil in Hin. }
  unfold chkconfig_state in Hstate.
  destruct (decide (rl3 = "on")) as [->|]; [|done].
  destruct (decide (rc_of (probe h service_path name) = 0%Z)); [done|].
  destruct (decide (refused (stderr_of (probe h service_path name))));
    [|done].
  repeat split; try done.
  by apply (loop_flags_refused h service_path _ name).
Qed.

Lemma listed_service_missing_only_if_refused_witness :
  rc_of (probe Hosts.chkconfig_host "/sbin/service" "vault") ≠ 0%Z
  ∧ refused (stderr_of (probe Hosts.chkconfig_host "/sbin/service" "vault"))
  ∧ incomplete_warning (ServiceScanService.gather_services Hosts.chkconfig_host)
    = true.
Proof.
  apply (listed_service_missing_only_if_refused Hosts.chkconfig_host
           "/sbin/service" "/sbin/chkconfig" chkconfig_host_map "vault" "on"
           eq_refl eq_refl chkconfig_host_scan).
  - column chkconfig_host_vault.
  - vm_compute. reflexivity.
Defined.

(** *** The warning flag *)

Lemma chkconfig_line_incomplete (h : Host) (service_path : string) (st : scan)
    (line : string) :
  incomplete (ServiceScanService.chkconfig_line h service_path st line) = true ↔
  incomplete st = true
  ∨ ∃ m, Re.match_ ServiceScanService.p line = Some m
         ∧ group m "rl3" = "on"
         ∧ rc_of (probe h service_path (group m "service")) ≠ 0%Z
         ∧ refused (stderr_of (probe h service_path (group m "service"))).
Proof.
  rewrite chkconfig_line_eq.
  destruct (Re.match_ ServiceScanService.p line) as [m|].
  2:{ split; [by left|]. by intros [?|(m & [=] & _)]. }
  cbv zeta. fold (probe h service_path (group m "service")).
  destruct (String.eqb_spec (group m "rl3") "on") as [Hon|Hoff].
  - destruct (decide (rc_of (probe h service_path (group m "service")) = 0%Z))
      as [Hrc|Hrc]; simpl.
    + split; [by left|]. intros [?|(m' & [= <-] & _ & ? & _)]; done.
    + destruct (ServiceScanService.permission_denied _) eqn:Hp; simpl.
      * split; [|done]. intros _. right. exists m.
        by apply permission_denied_refused in Hp.
      * split; [by left|].
        intros [?|(m' & [= <-] & _ & _ & Hr%permission_denied_refused)];
          [done|congruence].
  - simpl. split; [by left|]. intros [?|(m' & [= <-] & ? & _)]; done.
Qed.

Lemma chkconfig_loop_incomplete (h : Host) (service_path : string)
    (lines : list string) (st : scan) :
  incomplete (foldl (ServiceScanService.chkconfig_line h service_path) st lines)
    = true ↔
  incomplete st = true
  ∨ ∃ name, listed lines name "on"
            ∧ rc_of (probe h service_path name) ≠ 0%Z
            ∧ refused (stderr_of (probe h service_path name)).
Proof.
  revert st. induction lines as [|line lines IH]; intros st; simpl.
  - split; [by left|]. intros [?|(name & (l & m & Hl & _) & _)]; [done|].
    by apply elem_of_nil in Hl.
  - rewrite IH, chkconfig_line_incomplete. split.
    + intros [[?|(m & Hm & Hon & Hrc & Hr)]|(name & (l & m & Hl & Hm) & H)].
      * by left.
      * right. exists (group m "service"). split; [|done].
        exists line, m. split; [by left|done].
      * right. exists name. split; [|done].
        exists l, m. split; [by right|done].
    + intros [?|(name & (l & m & Hl & Hm & Hname & Hon) & Hrc & Hr)];
        [by left; left|].
      apply elem_of_cons in Hl as [->|Hl].
      * left. right. exists m. by rewrite Hname.
      * right. exists name. split; [|done]. by exists l, m.
Qed.

Lemma sysv_upstart_keep_flag (lines1 lines2 : list string) (st1 st2 : scan) :
  incomplete st2 = incomplete (foldl ServiceScanService.sysv_line st1 lines1) →
  incomplete (foldl ServiceScanService.upstart_line st2 lines2) = incomplete st1.
Proof.
  intros H2.
  transitivity (incomplete st2).
  - apply (foldl_preserves _ (λ a, incomplete a = incomplete st2)); [|done].
    intros a line _ Ha.
    by destruct (upstart_line_cases a line) as [->|(? & ? & ? & ->)].
  - rewrite H2.
    apply (foldl_preserves _ (λ a, incomplete a = incomplete st1)); [|done].
    intros a line _ Ha.
    by destruct (sysv_line_cases a line) as [->|(? & ? & _ & ->)].
Qed.

Lemma listing_incomplete (h : Host) (chkconfig_path : string) (st : scan) :
  incomplete (ServiceScanService.listing h chkconfig_path st).2 = incomplete st.
Proof.
  unfold ServiceScanService.listing.
  destruct (run_command h chkconfig_path true) as [[rc out] err].
  repeat case_match; done.
Qed.

Lemma gather_chkconfig_flag (h : Host) (service_path chkconfig_path : string) :
  get_bin_path h "service" [] = Some service_path →
  get_bin_path h "chkconfig" [] = Some chkconfig_path →
  incomplete_warning (ServiceScanService.gather_services h) =
    incomplete
      (foldl (ServiceScanService.chkconfig_line h service_path)
             (ServiceScanService.listing h chkconfig_path init).2
             (listing_lines h chkconfig_path)).
Proof.
  intros Hs Hc. unfold ServiceScanService.gather_services, listing_lines.
  rewrite Hs, Hc. unfold ServiceScanService.chkconfig.
  destruct (ServiceScanService.listing h chkconfig_path init)
    as [[out err] st0].
  by destruct (get_bin_path h "initctl" []).
Qed.

(** X5. The first scanner's incomplete flag is set exactly when the host
    has the service and chkconfig binaries and the listing shows, with
    runlevel 3 on, a service whose probe exits non-zero with a stderr that
    has one of the three marks. A report of [main] has a message beside its
    services only then, and the message is the warning. *)
Theorem warning_iff_refused_probe (h : Host) :
  let refused_probe :=
    ∃ service_path chkconfig_path name,
      get_bin_path h "service" [] = Some service_path
      ∧ get_bin_path h "chkconfig" [] = Some chkconfig_path
      ∧ listed (listing_lines h chkconfig_path) name "on"
      ∧ rc_of (probe h service_path name) ≠ 0%Z
      ∧ refused (stderr_of (probe h service_path name)) in
  (incomplete_warning (ServiceScanService.gather_services h) = true
   ↔ refused_probe)
  ∧ (∀ all_services msg,
       main h = Facts all_services (Some msg) →
       msg = WARNING_MSG ∧ refused_probe).
Proof.
  intros refused_probe.
  assert (incomplete_warning (ServiceScanService.gather_services h) = true
          ↔ refused_probe) as Hiff.
  { unfold refused_probe.
    destruct (get_bin_path h "service" []) as [sp|] eqn:Hs.
    2:{ unfold ServiceScanService.gather_services. rewrite Hs. simpl.
        split; [done|]. by intros (? & ? & ? & [=] & _). }
    destruct (get_bin_path h "chkconfig" []) as [cp|] eqn:Hc.
    - rewrite (gather_chkconfig_flag h sp cp Hs Hc).
      rewrite chkconfig_loop_incomplete, listing_incomplete. simpl. split.
      + intros [?|(name & H)]; [done|]. by exists sp, cp, name.
      + intros (sp' & cp' & name & [= <-] & [= <-] & H). right. by exists name.
    - destruct (gather_sysv_upstart h sp Hs Hc)
        as (st1 & st2 & _ & H1 & _ & H2 & _ & Hflag).
      cbv zeta in Hflag. rewrite Hflag.
      rewrite (sysv_upstart_keep_flag _ _ st1 st2 H2), H1.
      split; [done|]. by intros (? & ? & ? & _ & [=] & _). }
  split; [exact Hiff|].
  intros all_services msg. unfold main, report.
  destruct (decide (services (scan_all h) = ∅)); [done|].
  rewrite (proj1 (proj2 (scan_all_eq h))), systemctl_scan_complete, orb_false_r.
  destruct (incomplete_warning (ServiceScanService.gather_services h)) eqn:E;
    [|done].
  intros [= _ <-]. split; [done|]. by apply Hiff.
Qed.

Lemma warning_iff_refused_probe_witness :
  incomplete_warning (ServiceScanService.gather_services Hosts.chkconfig_host)
    = true
  ∧ incomplete_warning (ServiceScanService.gather_services Hosts.upstart_host)
    ≠ true.
Proof.
  split.
  - apply (proj1 (warning_iff_refused_probe Hosts.chkconfig_host)).
    exists "/sbin/service", "/sbin/chkconfig", "vault".
    split; [reflexivity|]. split; [reflexivity|].
    split; [column chkconfig_host_vault|].
    split; [vm_compute; discriminate|].
    right; right. vm_compute. reflexivity.
  - intros Hflag.
    apply (proj1 (warning_iff_refused_probe Hosts.upstart_host)) in Hflag
      as (sp & cp & name & _ & Hc & _).
    discriminate Hc.
Defined.

(** *** The commands of a scan *)

Lemma chkconfig_loop_probes (h : Host) (service_path : string)
    (lines : list string) (st : scan) :
  calls (foldl (ServiceScanService.chkconfig_line h service_path) st lines) =
    calls st
    ++ ((λ name, (ServiceStatus, status_cmd service_path name)) <$> probed lines).
Proof.
  revert st. induction lines as [|line lines IH]; intros st; simpl.
  - by rewrite app_nil_r.
  - rewrite IH, chkconfig_line_eq. unfold probed at 2. csimpl.
    destruct (Re.match_ ServiceScanService.p line) as [m|]; [|done].
    cbv zeta. simpl.
    destruct (String.eqb_spec (group m "rl3") "on") as [Hon|Hoff].
    + rewrite (decide_True (P := group m "rl3" = "on")) by done. csimpl.
      repeat case_match; simpl; by rewrite <- app_assoc.
    + by rewrite (decide_False (P := group m "rl3" = "on")).
Qed.


Lemma gather_chkconfig_calls (h : Host) (service_path chkconfig_path : string) :
  get_bin_path h "service" [] = Some service_path →
  get_bin_path h "chkconfig" [] = Some chkconfig_path →
  ran (ServiceScanService.gather_services h) =
    calls
      (foldl (ServiceScanService.chkconfig_line h service_path)
             (ServiceScanService.listing h chkconfig_path init).2
             (listing_lines h chkconfig_path)).
Proof.
  intros Hs Hc. unfold ServiceScanService.gather_services, listing_lines.
  rewrite Hs, Hc. unfold ServiceScanService.chkconfig.
  destruct (ServiceScanService.listing h chkconfig_path init)
    as [[out err] st0].
  by destruct (get_bin_path h "initctl" []).
Qed.





(** X7. The sysv status listing runs exactly when the service binary exists
    and chkconfig does not. Then the first scanner runs that listing and,
    with an initctl binary, the job listing after it, and nothing else. *)
Theorem sysv_applicability (h : Host) :
  (runs SysvStatusAll h ↔
     is_Some (get_bin_path h "service" [])
     ∧ ¬ is_Some (get_bin_path h "chkconfig" [])) ∧
  (∀ service_path,
     get_bin_path h "service" [] = Some service_path →
     get_bin_path h "chkconfig" [] = None →
     ran (ServiceScanService.gather_services h) =
       (SysvStatusAll, ServiceScanService.status_all_cmd service_path)
       :: match get_bin_path h "initctl" [] with
          | Some initctl_path => [(InitctlList, initctl_path +:+ " list")]
          | None => []
          end).
Proof.
  assert (∀ sp,
    get_bin_path h "service" [] = Some sp →
    get_bin_path h "chkconfig" [] = None →
    ran (ServiceScanService.gather_services h) =
      (SysvStatusAll, ServiceScanService.status_all_cmd sp)
      :: match get_bin_path h "initctl" [] with
         | Some ip => [(InitctlList, ip +:+ " list")]
         | None => []
         end) as Htrace.
  { intros sp Hs Hc. unfold ServiceScanService.gather_services.
    rewrite Hs, Hc.
    destruct (get_bin_path h "initctl" []); simpl;
      by rewrite ?upstart_calls, sysvinit_calls. }
  split; [|exact Htrace]. unfold runs.
  destruct (get_bin_path h "service" []) as [sp|] eqn:Hs.
  2:{ unfold ServiceScanService.gather_services. rewrite Hs. simpl.
      split; [by intros ?%elem_of_nil|]. by intros ([? [=]] & _). }
  destruct (get_bin_path h "chkconfig" []) as [cp|] eqn:Hc.
  - rewrite (gather_chkconfig_calls h sp cp Hs Hc), chkconfig_loop_probes.
    split; [|intros (_ & Hno); destruct Hno; by eexists].
    rewrite fmap_app. intros [Hin|Hin]%elem_of_app.
    + apply list_elem_of_fmap in Hin as (c & Hsite & Hin).
      pose proof (listing_eq h cp init) as Hl. cbv zeta in Hl.
      rewrite Hl in Hin.
      repeat case_match; simpl in Hin;
        repeat (apply elem_of_cons in Hin as [->|Hin]; [done|]);
        by apply elem_of_nil in Hin.
    + rewrite <- list_fmap_compose in Hin.
      apply list_elem_of_fmap in Hin as (name & Hsite & _). done.
  - rewrite (Htrace sp eq_refl eq_refl).
    split; [intros _|intros _; by left].
    split; [by eexists|]. by intros [? [=]].
Qed.

Lemma sysv_applicability_witness :
  runs SysvStatusAll Hosts.upstart_host
  ∧ ¬ runs SysvStatusAll Hosts.chkconfig_host
  ∧ ran (ServiceScanService.gather_services Hosts.upstart_host)
    = [ (SysvStatusAll, ServiceScanService.status_all_cmd "/usr/sbin/service");
        (InitctlList, "/sbin/initctl list") ].
Proof.
  split; [|split].
  - apply (proj1 (sysv_applicability Hosts.upstart_host)).
    split; [by eexists|]. by intros [? [=]].
  - intros Hr. apply (proj1 (sysv_applicability Hosts.chkconfig_host)) in Hr.
    destruct Hr as [_ Hno]. apply Hno. by eexists.
  - apply (proj2 (sysv_applicability Hosts.upstart_host)
             "/usr/sbin/service" eq_refl eq_refl).
Defined.

(** *** The systemd scanner's gate *)

(** X8. The systemd scanner returns a map exactly when some line of
    /proc/1/comm contains [systemd] and the systemctl binary is found; it
    then has run the unit-file listing and nothing else. Otherwise it
    returns [None] and has run no command. *)
Theorem systemd_scanner_gate (h : Host) :
  let o := SystemctlScanService.gather_services h in
  let init_is_systemd :=
    ∃ f line, proc_1_comm h = Some f ∧ line ∈ f
              ∧ PyStr.contains "systemd" line = true in
  let systemctl := get_bin_path h "systemctl" ["/usr/bin"; "/usr/local/bin"] in
  (is_Some (svc o) ↔ init_is_systemd ∧ is_Some systemctl)
  ∧ (svc o = None → ran o = [])
  ∧ (∀ m, svc o = Some m →
          ∃ systemctl_path,
            systemctl = Some systemctl_path
            ∧ ran o = [(SystemctlListUnitFiles,
                        systemctl_path
                          +:+ " list-unit-files --type=service | tail -n +2 | head -n -2")]).
Proof.
  intros o init_is_systemd systemctl.
  assert (SystemctlScanService.systemd_enabled h = true ↔ init_is_systemd)
    as Henabled.
  { unfold SystemctlScanService.systemd_enabled, init_is_systemd.
    destruct (proc_1_comm h) as [f|].
    - rewrite existsb_exists. split.
      + intros (line & Hin%list_elem_of_In & Hc). by exists f, line.
      + intros (f' & line & [= <-] & Hin%list_elem_of_In & Hc). by exists line.
    - split; [done|]. by intros (f & line & [=] & _). }
  subst o systemctl. unfold SystemctlScanService.gather_services.
  destruct (SystemctlScanService.systemd_enabled h); simpl.
  2:{ split; [|done]. split; [by intros [? [=]]|].
      intros [H%Henabled _]. done. }
  destruct (get_bin_path h "systemctl" ["/usr/bin"; "/usr/local/bin"])
    as [path|]; simpl.
  2:{ split; [|done]. split; [by intros [? [=]]|]. by intros [_ [? [=]]]. }
  destruct (run_command h _ true) as [[rc out] err]. simpl.
  assert (calls (foldl SystemctlScanService.systemd_line
                   (log SystemctlListUnitFiles
                      (path +:+ " list-unit-files --type=service | tail -n +2 | head -n -2")
                      init)
                   (PyStr.split_on PyStr.LF out))
          = [(SystemctlListUnitFiles,
              path +:+ " list-unit-files --type=service | tail -n +2 | head -n -2")])
    as Hcalls.
  { apply (foldl_preserves _ (λ a, calls a = _)); [|done].
    intros a line _ Ha.
    by destruct (systemd_line_cases a line) as [->|(? & ? & _ & ->)]. }
  split; [|split; [done|]].
  - split; [intros _|by eexists]. split; [by apply Henabled|by eexists].
  - intros m _. by exists path.
Qed.

Lemma systemd_scanner_gate_witness :
  is_Some (svc (SystemctlScanService.gather_services Hosts.systemd_host))
  ∧ ran (SystemctlScanService.gather_services Hosts.chkconfig_host) = [].
Proof.
  split.
  - apply (proj1 (systemd_scanner_gate Hosts.systemd_host)).
    split; [|by eexists].
    exists ["systemd"], "systemd". split; [reflexivity|].
    split; [by left|reflexivity].
  - apply (proj1 (proj2 (systemd_scanner_gate Hosts.chkconfig_host))).
    reflexivity.
Defined.

(** *** The chkconfig listing, when it is not run again *)

Lemma chkconfig_loop_idle (h : Host) (service_path : string) (stdout : string)
    (st : scan) :
  ¬ matches ServiceScanService.p stdout →
  foldl (ServiceScanService.chkconfig_line h service_path) st
        (PyStr.split_on PyStr.LF stdout) = st.
Proof.
  unfold matches. intros Hno.
  apply (foldl_preserves _ (λ a, a = st)); [|done].
  intros a line Hline ->. unfold ServiceScanService.chkconfig_line.
  destruct (Re.match_ ServiceScanService.p line) as [m|] eqn:Hm; [|done].
  destruct Hno. apply Exists_exists. exists line. by rewrite Hm.
Qed.

(** X9. On a host with the service and chkconfig binaries: when some line
    of the plain listing matches the seven-runlevel pattern, the listing is
    run once and the parse loop reads it; when no line matches either
    pattern and the stderr of the plain listing lacks [--list], the listing
    is run once, no probe is run, and the scanner returns the empty map with
    its flag unset. *)
Theorem chkconfig_single_listing (h : Host) (service_path chkconfig_path : string) :
  get_bin_path h "service" [] = Some service_path →
  get_bin_path h "chkconfig" [] = Some chkconfig_path →
  let base := run_command h chkconfig_path true in
  let result := ServiceScanService.gather_services h in
  (matches ServiceScanService.p (stdout_of base) →
   let st :=
     foldl (ServiceScanService.chkconfig_line h service_path)
           (Scan ∅ false [(ChkconfigBase, chkconfig_path)])
           (PyStr.split_on PyStr.LF (stdout_of base)) in
   result = Outcome (Some (services st)) (incomplete st) (calls st)
   ∧ filter (λ c, c.1 ≠ ServiceStatus) (ran result)
     = [(ChkconfigBase, chkconfig_path)])
  ∧
  (¬ matches ServiceScanService.p (stdout_of base) →
   ¬ matches ServiceScanService.p_simple (stdout_of base) →
   PyStr.contains "--list" (stderr_of base) = false →
   result = Outcome (Some ∅) false [(ChkconfigBase, chkconfig_path)]).
Proof.
  intros Hs Hc base result.
  assert (result =
    let '(out, err, st) := ServiceScanService.listing h chkconfig_path init in
    let st' := foldl (ServiceScanService.chkconfig_line h service_path) st
                     (PyStr.split_on PyStr.LF out) in
    Outcome (Some (services st')) (incomplete st') (calls st')) as Hres.
  { unfold result, ServiceScanService.gather_services. rewrite Hs, Hc.
    unfold ServiceScanService.chkconfig.
    by destruct (get_bin_path h "initctl" []);
      destruct (ServiceScanService.listing _ _ _) as [[out err] st]. }
  rewrite listing_eq in Hres. cbv zeta in Hres. fold base in Hres.
  split.
  - intros Hp st. rewrite decide_True in Hres by done. simpl in Hres.
    fold st in Hres. split; [done|]. rewrite Hres. simpl.
    destruct (chkconfig_loop_calls h service_path
                (PyStr.split_on PyStr.LF (stdout_of base))
                (Scan ∅ false [(ChkconfigBase, chkconfig_path)]))
      as (probes & Hcalls & Hprobes).
    subst st. rewrite Hcalls. simpl.
    rewrite filter_cons_True by done. by rewrite (filter_probes _ Hprobes).
  - intros Hp Hsimple Hlist.
    rewrite !decide_False, Hlist in Hres by done. simpl in Hres.
    by rewrite chkconfig_loop_idle in Hres.
Qed.

Lemma chkconfig_single_listing_witness :
  filter (λ c, c.1 ≠ ServiceStatus)
         (ran (ServiceScanService.gather_services Hosts.chkconfig_host))
    = [(ChkconfigBase, "/sbin/chkconfig")]
  ∧ ServiceScanService.gather_services Hosts.mute_chkconfig_host
    = Outcome (Some ∅) false [(ChkconfigBase, "/sbin/chkconfig")].
Proof.
  split.
  - apply (proj1 (chkconfig_single_listing Hosts.chkconfig_host
                    "/sbin/service" "/sbin/chkconfig" eq_refl eq_refl)).
    apply match_any_spec. vm_compute. reflexivity.
  - apply (proj2 (chkconfig_single_listing Hosts.mute_chkconfig_host
                    "/sbin/service" "/sbin/chkconfig" eq_refl eq_refl)).
    + intros Hm%match_any_spec. vm_compute in Hm. discriminate.
    + intros Hm%match_any_spec. vm_compute in Hm. discriminate.
    + vm_compute. reflexivity.
Defined.

(** *** The merge of [main], name by name *)

(** X10. In the final map the record under a name is the systemd scanner's
    when it has one, and the first scanner's otherwise: no record of either
    scanner is lost otherwise. A scanner that returned [None] counts as
    having no record. *)
Theorem merge_lookup (h : Host) (name : string) :
  let first := default ∅ (svc (ServiceScanService.gather_services h)) in
  let systemd := default ∅ (svc (SystemctlScanService.gather_services h)) in
  let merged :=
    match systemd !! name with
    | Some r => Some r
    | None => first !! name
    end in
  services (scan_all h) !! name = merged
  ∧ (∀ all_services msg, main h = Facts all_services msg →
       all_services !! name = merged)
  ∧ (∀ msg, main h = Skipped msg → merged = None).
Proof.
  intros first systemd merged.
  assert (services (scan_all h) !! name = merged) as Hall.
  { rewrite (proj1 (scan_all_eq h)). fold first. fold systemd.
    rewrite lookup_union. unfold merged.
    by destruct (systemd !! name), (first !! name). }
  split; [exact Hall|]. unfold main, report.
  destruct (decide (services (scan_all h) = ∅)) as [Hempty|Hne].
  - split; [done|]. intros _ _. by rewrite <- Hall, Hempty.
  - split; [|done]. by intros all_services msg [= <- _].
Qed.

Lemma merge_lookup_witness :
  services (scan_all Hosts.systemd_host) !! "udev"
    = Some (record_of "udev" (PStr "running") "sysv")
  ∧ services (scan_all Hosts.systemd_host) !! "cron"
    = Some (record_of "cron" (PStr "stopped") "systemd").
Proof.
  split.
  - rewrite (proj1 (merge_lookup Hosts.systemd_host "udev")).
    vm_compute. reflexivity.
  - rewrite (proj1 (merge_lookup Hosts.systemd_host "cron")).
    vm_compute. reflexivity.
Defined.

(** X11. A host without the service binary and without a usable systemd is
    skipped without a single command being run, whatever other binaries it
    has. *)
Theorem no_service_no_systemd (h : Host) :
  get_bin_path h "service" [] = None →
  (SystemctlScanService.systemd_enabled h = false
   ∨ get_bin_path h "systemctl" ["/usr/bin"; "/usr/local/bin"] = None) →
  main h = Skipped "Failed to find any services. Sometimes this is due to insufficient privileges."
  ∧ calls (scan_all h) = [].
Proof.
  intros Hs Hd.
  assert (ServiceScanService.gather_services h = Outcome None false []) as H1.
  { unfold ServiceScanService.gather_services. by rewrite Hs. }
  assert (SystemctlScanService.gather_services h = Outcome None false []) as H2.
  { unfold SystemctlScanService.gather_services.
    destruct Hd as [-> | ->]; [done|]. by destruct (negb _). }
  destruct (scan_all_eq h) as (Hall & _ & Hcalls).
  rewrite H1, H2 in Hall, Hcalls. simpl in Hall, Hcalls.
  split; [|exact Hcalls].
  unfold main, report. rewrite Hall, (left_id_L ∅ (∪)). by rewrite decide_True.
Qed.

Lemma no_service_no_systemd_witness :
  main Hosts.initctl_only_host
    = Skipped "Failed to find any services. Sometimes this is due to insufficient privileges."
  ∧ calls (scan_all Hosts.initctl_only_host) = [].
Proof.
  apply (no_service_no_systemd Hosts.initctl_only_host eq_refl).
  left. reflexivity.
Defined.

(** *** The shape of a record *)

Lemma well_shaped_sysv : on_sysv well_shaped.
Proof.
  intros name state _. left. split; [|by left].
  unfold record_of. rewrite !dom_insert_L, dom_singleton_L.
  apply set_eq. intros x. rewrite !elem_of_union, !elem_of_singleton.
  tauto.
Qed.

Lemma well_shaped_systemd : on_systemd well_shaped.
Proof.
  intros name state _. left. split; [|by right].
  unfold record_of. rewrite !dom_insert_L, dom_singleton_L.
  apply set_eq. intros x. rewrite !elem_of_union, !elem_of_singleton.
  tauto.
Qed.

Lemma well_shaped_upstart : on_upstart well_shaped.
Proof.
  intros name state goal. right. split; [|done].
  rewrite !dom_insert_L, dom_singleton_L.
  apply set_eq. intros x. rewrite !elem_of_union, !elem_of_singleton.
  tauto.
Qed.

(** X12. Every record of either scanner's map and of the final map has the
    keys name, state and source and no other, but for the records of source
    upstart, which also have goal. No record has a pid. *)
Theorem records_well_shaped (h : Host) :
  (∀ m, svc (ServiceScanService.gather_services h) = Some m →
        map_Forall well_shaped m) ∧
  (∀ m, svc (SystemctlScanService.gather_services h) = Some m →
        map_Forall well_shaped m) ∧
  (∀ m msg, main h = Facts m msg →
        map_Forall well_shaped m
        ∧ map_Forall (λ _ r, r !! "pid" = None) m).
Proof.
  split; [|split].
  - intros m. apply service_scan_records;
      auto using well_shaped_sysv, well_shaped_upstart.
  - intros m. apply systemctl_scan_records, well_shaped_systemd.
  - intros m msg. unfold main, report.
    destruct (decide (services (scan_all h) = ∅)); [done|].
    intros [= <- _].
    assert (map_Forall well_shaped (services (scan_all h))) as Hall
      by (apply scan_all_records;
          auto using well_shaped_sysv, well_shaped_upstart, well_shaped_systemd).
    split; [exact Hall|].
    intros k r Hr. apply Hall in Hr as [[Hdom _]|[Hdom _]];
      apply not_elem_of_dom; rewrite Hdom;
      rewrite !elem_of_union, !elem_of_singleton; intros H;
      repeat destruct H as [H|H]; discriminate.
Qed.

Lemma records_well_shaped_witness :
  map_Forall well_shaped chkconfig_host_map.
Proof.
  apply (proj1 (records_well_shaped Hosts.chkconfig_host)),
    chkconfig_host_scan.
Defined.

Lemma state_is_text_sysv : on_sysv state_is_text.
Proof. intros name state Hs. exists state. split; [done|by right]. Qed.

Lemma state_is_text_systemd : on_systemd state_is_text.
Proof. intros name state Hs. exists state. split; [done|by right]. Qed.

Lemma state_is_text_upstart : on_upstart state_is_text.
Proof. intros name state goal. exists state. split; [done|by left]. Qed.

(** X13. In either scanner's map and in the final map the state of every
    record is a string, never an exit code, and it is running or stopped
    for every record whose source is not upstart. *)
Theorem states_are_text (h : Host) :
  (∀ m, svc (ServiceScanService.gather_services h) = Some m →
        map_Forall state_is_text m) ∧
  (∀ m, svc (SystemctlScanService.gather_services h) = Some m →
        map_Forall state_is_text m) ∧
  (∀ m msg, main h = Facts m msg →
        map_Forall state_is_text m
        ∧ map_Forall (λ _ r, ∀ n, r !! "state" ≠ Some (PInt n)) m).
Proof.
  split; [|split].
  - intros m. apply service_scan_records;
      auto using state_is_text_sysv, state_is_text_upstart.
  - intros m. apply systemctl_scan_records, state_is_text_systemd.
  - intros m msg. unfold main, report.
    destruct (decide (services (scan_all h) = ∅)); [done|].
    intros [= <- _].
    assert (map_Forall state_is_text (services (scan_all h))) as Hall
      by (apply scan_all_records;
          auto using state_is_text_sysv, state_is_text_upstart,
            state_is_text_systemd).
    split; [exact Hall|].
    intros k r Hr code. apply Hall in Hr as (s & -> & _). done.
Qed.

Lemma states_are_text_witness :
  map_Forall state_is_text chkconfig_host_map.
Proof.
  apply (proj1 (states_are_text Hosts.chkconfig_host)), chkconfig_host_scan.
Defined.

(** *** Tokens and names *)

Lemma split_tokens (s : string) : Forall token (PyStr.split s).
Proof.
  induction s as [|c s IH]; [constructor|].
  simpl. destruct (PyStr.isspace c) eqn:Hc; [done|].
  destruct s as [|c' s']; [by repeat constructor; simpl; rewrite ?Hc|].
  destruct (PyStr.isspace c') eqn:Hc'.
  - constructor; [|done]. split; [done|]. simpl. by rewrite Hc.
  - destruct (PyStr.split (String c' s')) as [|w ws].
    + repeat constructor; [done|]. simpl. by rewrite Hc.
    + apply Forall_cons in IH as [[_ Hw] Hws].
      constructor; [|done]. split; [done|]. simpl. by rewrite Hc, Hw.
Qed.

(** One step of [split] on two characters that are not whitespace. *)
Lemma split_cons_cons (c c' : ascii) (s : string) :
  PyStr.isspace c = false → PyStr.isspace c' = false →
  PyStr.split (String c (String c' s)) =
    match PyStr.split (String c' s) with
    | [] => [String c ""]
    | w :: ws => String c w :: ws
    end.
Proof. intros Hc Hc'. simpl. by rewrite Hc, Hc'. Qed.

Lemma split_token (t : string) : token t → PyStr.split t = [t].
Proof.
  intros [Hne Ht]. induction t as [|c t IH]; [done|].
  simpl in Ht. apply andb_true_iff in Ht as [Hc%negb_true_iff Ht].
  destruct t as [|c' t'].
  - simpl. by rewrite Hc.
  - pose proof Ht as Ht'. simpl in Ht'.
    apply andb_true_iff in Ht' as [Hc'%negb_true_iff _].
    rewrite split_cons_cons by done. by rewrite IH.
Qed.

Lemma split_token_space (t s : string) :
  token t → PyStr.split (t +:+ String " " s) = t :: PyStr.split s.
Proof.
  intros [Hne Ht]. induction t as [|c t IH]; [done|].
  simpl in Ht. apply andb_true_iff in Ht as [Hc%negb_true_iff Ht].
  destruct t as [|c' t'].
  - simpl. by rewrite Hc.
  - pose proof Ht as Ht'. simpl in Ht'.
    apply andb_true_iff in Ht' as [Hc'%negb_true_iff _].
    specialize (IH ltac:(done) Ht).
    change (String c (String c' t') +:+ String " " s)
      with (String c (String c' (t' +:+ String " " s))).
    change (String c' t' +:+ String " " s)
      with (String c' (t' +:+ String " " s)) in IH.
    rewrite split_cons_cons by done. by rewrite IH.
Qed.

(** Splitting undoes joining with one space, for tokens. *)
Lemma split_join (ts : list string) :
  Forall token ts → PyStr.split (PyStr.join " " ts) = ts.
Proof.
  induction 1 as [|t ts Ht Hts IH]; [done|].
  unfold PyStr.join in *. destruct ts as [|t' ts'].
  - by apply split_token.
  - change (String.concat " " (t :: t' :: ts'))
      with (t +:+ String " " (String.concat " " (t' :: ts'))).
    by rewrite split_token_space, IH.
Qed.

Lemma sysv_name_normal (line : string) :
  (4 ≤ length (PyStr.split line))%nat →
  normal_name (PyStr.join " " (drop 3 (PyStr.split line))).
Proof.
  intros Hlen.
  assert (Forall token (drop 3 (PyStr.split line))) as Htokens
    by apply Forall_drop, split_tokens.
  split; [|by rewrite split_join].
  destruct (drop 3 (PyStr.split line)) as [|t ts] eqn:Hdrop.
  { apply (f_equal length) in Hdrop. rewrite length_drop in Hdrop.
    simpl in Hdrop. lia. }
  apply Forall_cons in Htokens as [[Hne _] _].
  unfold PyStr.join. destruct t; [done|]. by destruct ts.
Qed.

Lemma systemd_line_stores (st : scan) (line : string) :
  services (SystemctlScanService.systemd_line st line) =
    match PyStr.split line with
    | [u; v] =>
        <[u := record_of u
                 (PStr (if decide (v = "enabled") then "running" else "stopped"))
                 "systemd"]> (services st)
    | _ => services st
    end.
Proof.
  unfold SystemctlScanService.systemd_line.
  destruct (PyStr.split line) as [|u [|v [|w l]]]; try done.
  unfold item. simpl.
  destruct (String.eqb_spec v "enabled") as [->|Hne].
  - by rewrite decide_True.
  - by rewrite decide_False.
Qed.

Lemma systemd_keys (h : Host) (m : gmap string (gmap string pyval))
    (k : string) (r : gmap string pyval) :
  svc (SystemctlScanService.gather_services h) = Some m →
  m !! k = Some r → token k.
Proof.
  unfold SystemctlScanService.gather_services.
  destruct (negb _); [done|].
  destruct (get_bin_path _ _ _) as [path|]; [|done].
  destruct (run_command _ _ _) as [[rc out] err]. simpl.
  intros [= <-]. revert k r.
  apply (foldl_preserves _
           (λ a, ∀ k r, services a !! k = Some r → token k)); [|done].
  intros a line _ Ha k r. rewrite systemd_line_stores.
  pose proof (split_tokens line) as Htokens.
  destruct (PyStr.split line) as [|u [|v [|w l]]]; try apply Ha.
  apply Forall_cons in Htokens as [Hu _].
  destruct (decide (u = k)) as [->|Hne].
  - done.
  - rewrite lookup_insert_ne by done. apply Ha.
Qed.

Lemma sysv_keys (h : Host) (service_path : string)
    (m : gmap string (gmap string pyval)) (k : string) (r : gmap string pyval) :
  get_bin_path h "service" [] = Some service_path →
  get_bin_path h "chkconfig" [] = None →
  svc (ServiceScanService.gather_services h) = Some m →
  m !! k = Some r → r !! "source" = Some (PStr "sysv") → normal_name k.
Proof.
  intros Hs Hc.
  destruct (gather_sysv_upstart h service_path Hs Hc)
    as (st1 & st2 & H1 & _ & H2 & _ & Hsvc & _).
  cbv zeta in Hsvc. rewrite Hsvc. intros [= <-]. revert k r.
  apply (foldl_preserves _
           (λ a, ∀ k r, services a !! k = Some r →
                        r !! "source" = Some (PStr "sysv") → normal_name k)).
  - intros a line _ Ha k r. rewrite upstart_line_stores.
    destruct (Re.match_ ServiceScanService.upstart_p line) as [g|];
      [|apply Ha].
    simpl. destruct (decide (group g "name" = k)) as [->|Hne].
    + rewrite lookup_insert_eq. by intros [= <-].
    + rewrite lookup_insert_ne by done. apply Ha.
  - rewrite H2.
    apply (foldl_preserves _
             (λ a, ∀ k r, services a !! k = Some r →
                          r !! "source" = Some (PStr "sysv") → normal_name k)).
    + intros a line _ Ha k r. rewrite sysv_line_stores. cbv zeta.
      destruct (Nat.ltb_spec (length (PyStr.split line)) 4) as [Hlt|Hge];
        [apply Ha|].
      destruct (decide (PyStr.join " " (drop 3 (PyStr.split line)) = k))
        as [<-|Hne].
      * intros _ _. by apply sysv_name_normal.
      * rewrite lookup_insert_ne by done. apply Ha.
    + intros k r. by rewrite H1.
Qed.

Lemma not_systemd_sysv : on_sysv (λ _ r, r !! "source" ≠ Some (PStr "systemd")).
Proof. by intros name state _. Qed.

Lemma not_systemd_upstart :
  on_upstart (λ _ r, r !! "source" ≠ Some (PStr "systemd")).
Proof. by intros name state goal. Qed.

Lemma only_systemd : on_systemd (λ _ r, r !! "source" = Some (PStr "systemd")).
Proof. by intros name state _. Qed.

(** X14. In the report of [main], the key of a record of source systemd is a
    single token: not empty and without whitespace. On a host without
    chkconfig, the key of a record of source sysv is in normal form: not
    empty, without whitespace at either end, with single spaces between its
    tokens. *)
Theorem names_are_normal (h : Host) (m : gmap string (gmap string pyval))
    (msg : option string) (k : string) (r : gmap string pyval) :
  main h = Facts m msg →
  m !! k = Some r →
  (r !! "source" = Some (PStr "systemd") → token k ∧ PyStr.split k = [k]) ∧
  (get_bin_path h "chkconfig" [] = None →
   r !! "source" = Some (PStr "sysv") → normal_name k).
Proof.
  unfold main, report.
  destruct (decide (services (scan_all h) = ∅)); [done|].
  intros [= <- _]. rewrite (proj1 (scan_all_eq h)).
  intros Hr%lookup_union_Some_raw.
  destruct (svc (SystemctlScanService.gather_services h)) as [md|] eqn:Hd;
    destruct (svc (ServiceScanService.gather_services h)) as [mf|] eqn:Hf;
    simpl in Hr.
  - destruct Hr as [Hr|[_ Hr]].
    + pose proof (systemctl_scan_records _ h md only_systemd Hd k r Hr) as Hsrc.
      simpl in Hsrc. split.
      * intros _. pose proof (systemd_keys h md k r Hd Hr) as Hk.
        split; [done|by apply split_token].
      * intros _ Hsysv. congruence.
    + pose proof (service_scan_records _ h mf not_systemd_sysv
                    not_systemd_upstart Hf k r Hr) as Hsrc.
      simpl in Hsrc. split; [done|].
      intros Hc Hsysv.
      destruct (get_bin_path h "service" []) as [sp|] eqn:Hs.
      * by apply (sysv_keys h sp mf k r).
      * unfold ServiceScanService.gather_services in Hf. by rewrite Hs in Hf.
  - destruct Hr as [Hr|[_ Hr]]; [|done].
    pose proof (systemctl_scan_records _ h md only_systemd Hd k r Hr) as Hsrc.
    simpl in Hsrc. split.
    + intros _. pose proof (systemd_keys h md k r Hd Hr) as Hk.
      split; [done|by apply split_token].
    + intros _ Hsysv. congruence.
  - destruct Hr as [Hr|[_ Hr]]; [done|].
    pose proof (service_scan_records _ h mf not_systemd_sysv
                  not_systemd_upstart Hf k r Hr) as Hsrc.
    simpl in Hsrc. split; [done|].
    intros Hc Hsysv.
    destruct (get_bin_path h "service" []) as [sp|] eqn:Hs.
    + by apply (sysv_keys h sp mf k r).
    + unfold ServiceScanService.gather_services in Hf. by rewrite Hs in Hf.
  - by destruct Hr as [Hr|[_ Hr]].
Qed.

Lemma names_are_normal_witness :
  token "sshd.service" ∧ normal_name "udev".
Proof.
  assert (∃ m msg r r',
            main Hosts.systemd_host = Facts m msg
            ∧ m !! "sshd.service" = Some r
            ∧ r !! "source" = Some (PStr "systemd")
            ∧ m !! "udev" = Some r'
            ∧ r' !! "source" = Some (PStr "sysv"))
    as (m & msg & r & r' & Hmain & Hr & Hsrc & Hr' & Hsrc').
  { eexists _, _, _, _. split; [vm_compute; reflexivity|].
    split; [vm_compute; reflexivity|]. split; [vm_compute; reflexivity|].
    split; vm_compute; reflexivity. }
  split.
  - apply (proj1 (names_are_normal Hosts.systemd_host m msg "sshd.service" r
                    Hmain Hr) Hsrc).
  - apply (proj2 (names_are_normal Hosts.systemd_host m msg "udev" r'
                    Hmain Hr') eq_refl Hsrc').
Defined.

(** X15. The key the sysv loop stores a line under, split on whitespace
    again, gives back the tokens of the line from the fourth on: two lines
    share a key exactly when they agree on those tokens, whatever their
    spacing. *)
Theorem sysv_name_round_trip (line line' : string) :
  (4 ≤ length (PyStr.split line))%nat →
  (4 ≤ length (PyStr.split line'))%nat →
  let name (l : string) := PyStr.join " " (drop 3 (PyStr.split l)) in
  PyStr.split (name line) = drop 3 (PyStr.split line)
  ∧ (name line = name line'
     ↔ drop 3 (PyStr.split line) = drop 3 (PyStr.split line')).
Proof.
  intros Hlen Hlen' name.
  assert (∀ l, PyStr.split (name l) = drop 3 (PyStr.split l)) as Hsplit.
  { intros l. apply split_join, Forall_drop, split_tokens. }
  split; [apply Hsplit|]. split.
  - intros Heq. by rewrite <- !Hsplit, Heq.
  - intros Heq. unfold name. by rewrite Heq.
Qed.

Lemma sysv_name_round_trip_witness :
  PyStr.split "my svc" = ["my"; "svc"]
  ∧ PyStr.join " " (drop 3 (PyStr.split " [ + ]  my svc"))
    = PyStr.join " " (drop 3 (PyStr.split "[ - ] my    svc ")).
Proof.
  split.
  - apply (proj1 (sysv_name_round_trip " [ - ]  my   svc" " [ + ]  x"
                    ltac:(vm_compute; lia) ltac:(vm_compute; lia))).
  - apply (proj2 (sysv_name_round_trip " [ + ]  my svc" "[ - ] my    svc "
                    ltac:(vm_compute; lia) ltac:(vm_compute; lia))).
    vm_compute. reflexivity.
Defined.

Lemma append_nil (b : string) : "" +:+ b = b.
Proof. reflexivity. Qed.

Lemma append_cons (x : ascii) (a b : string) :
  String x a +:+ b = String x (a +:+ b).
Proof. reflexivity. Qed.

Lemma take_app_length (w s : string) : PyStr.take (String.length w) (w +:+ s) = w.
Proof.
  induction w as [|c w IH]; [rewrite append_nil; by destruct s|].
  rewrite append_cons. simpl. by rewrite IH.
Qed.

Lemma append_assoc (a b c : string) : (a +:+ b) +:+ c = a +:+ (b +:+ c).
Proof.
  induction a as [|x a IH]; [done|]. rewrite !append_cons. by rewrite IH.
Qed.

Lemma append_length (a b : string) :
  String.length (a +:+ b) = (String.length a + String.length b)%nat.
Proof.
  induction a as [|x a IH]; [done|]. rewrite append_cons. simpl. by rewrite IH.
Qed.

Lemma many_greedy_sound (k : Re.cls) (s : string) (min pos : nat)
    (g : gmap string string) (c : Re.cont) (m : gmap string string) :
  Re.many_greedy k min pos s g c = Some m →
  ∃ w s', s = w +:+ s' ∧ (min ≤ String.length w)%nat ∧ all_in k w = true
          ∧ c (pos + String.length w)%nat s' g = Some m.
Proof.
  revert min pos. induction s as [|a s IH]; intros min pos; simpl.
  - destruct min; [|done]. intros H. exists "", "".
    rewrite Nat.add_0_r. simpl. repeat split; [lia|done].
  - assert (match min with
            | 0%nat => c pos (String a s) g
            | S _ => None
            end = Some m →
            ∃ w s', String a s = w +:+ s' ∧ (min ≤ String.length w)%nat
                    ∧ all_in k w = true
                    ∧ c (pos + String.length w)%nat s' g = Some m) as Hstop.
    { destruct min; [|done]. intros H. exists "", (String a s).
      rewrite Nat.add_0_r. simpl. repeat split; [lia|done]. }
    destruct (Re.cls_match k a) eqn:Hk; [|exact Hstop].
    destruct (Re.many_greedy k (pred min) (S pos) s g c) eqn:E; [|exact Hstop].
    intros [= <-]. apply IH in E as (w & s' & -> & Hlen & Hall & Hc).
    exists (String a w), s'. simpl. rewrite Hk, Hall.
    replace (pos + S (String.length w))%nat with (S pos + String.length w)%nat
      by lia.
    repeat split; [lia|done].
Qed.

Lemma many_lazy_sound (k : Re.cls) (s : string) (min pos : nat)
    (g : gmap string string) (c : Re.cont) (m : gmap string string) :
  Re.many_lazy k min pos s g c = Some m →
  ∃ w s', s = w +:+ s' ∧ (min ≤ String.length w)%nat ∧ all_in k w = true
          ∧ c (pos + String.length w)%nat s' g = Some m.
Proof.
  revert min pos. induction s as [|a s IH]; intros min pos; simpl.
  - destruct min; [|done]. destruct (c pos "" g) eqn:E; [|done].
    intros [= <-]. exists "", "".
    rewrite Nat.add_0_r. simpl. repeat split; [lia|done].
  - assert (match Re.cls_match k a with
            | true => Re.many_lazy k (pred min) (S pos) s g c
            | false => None
            end = Some m →
            ∃ w s', String a s = w +:+ s' ∧ (min ≤ String.length w)%nat
                    ∧ all_in k w = true
                    ∧ c (pos + String.length w)%nat s' g = Some m) as Hmore.
    { destruct (Re.cls_match k a) eqn:Hk; [|done].
      intros (w & s' & -> & Hlen & Hall & Hc)%IH.
      exists (String a w), s'. simpl. rewrite Hk, Hall.
      replace (pos + S (String.length w))%nat with (S pos + String.length w)%nat
        by lia.
      repeat split; [lia|done]. }
    destruct min; [|exact Hmore].
    destruct (c pos (String a s) g) eqn:E; [|exact Hmore].
    intros [= <-]. exists "", (String a s).
    rewrite Nat.add_0_r. simpl. repeat split; [lia|done].
Qed.

Section Sound.
Variable Q : string → string → Prop.

(** A match that succeeds has consumed a text of the pattern's language
    and then run its continuation, on groups that [Q] still allows. *)
Lemma run_sound (r : Re.regex) (pos : nat) (s : string)
    (g : gmap string string) (c : Re.cont) (m : gmap string string) :
  captures Q r → allowed Q g →
  Re.run r pos s g c = Some m →
  ∃ w s' g',
    s = w +:+ s' ∧ lang r w ∧ allowed Q g'
    ∧ c (pos + String.length w)%nat s' g' = Some m.
Proof.
  revert pos s g c.
  induction r as [|k|k min q|r1 IH1 r2 IH2|r1 IH1 r2 IH2|r1 IH1|r1 IH1
                 |n r1 IH1| |]; intros pos s g c Hcap Hg; simpl.
  - intros H. exists "", s, g. rewrite Nat.add_0_r. done.
  - destruct s as [|a s]; [done|]. destruct (Re.cls_match k a) eqn:Hk; [|done].
    intros H. exists (String a ""), s, g. simpl.
    replace (pos + 1)%nat with (S pos) by lia.
    repeat split; [by exists a|done|done].
  - destruct q.
    + intros (w & s' & -> & Hlen & Hall & H)%many_greedy_sound.
      by exists w, s', g.
    + intros (w & s' & -> & Hlen & Hall & H)%many_lazy_sound.
      by exists w, s', g.
  - destruct Hcap as [Hcap1 Hcap2].
    intros (w1 & s1 & g1 & -> & Hl1 & Hg1 & H1)%IH1; [|done|done].
    apply IH2 in H1 as (w2 & s2 & g2 & -> & Hl2 & Hg2 & H2); [|done|done].
    exists (w1 +:+ w2), s2, g2. rewrite append_assoc, append_length.
    rewrite Nat.add_assoc. repeat split; [|done|done]. by exists w1, w2.
  - destruct Hcap as [Hcap1 Hcap2].
    destruct (Re.run r1 pos s g c) eqn:E.
    + intros [= <-].
      apply IH1 in E as (w & s' & g' & -> & Hl & Hg' & H); [|done|done].
      exists w, s', g'. repeat split; [by left|done|done].
    + intros (w & s' & g' & -> & Hl & Hg' & H)%IH2; [|done|done].
      exists w, s', g'. repeat split; [by right|done|done].
  - destruct (Re.run r1 pos s g c) eqn:E.
    + intros [= <-].
      apply IH1 in E as (w & s' & g' & -> & Hl & Hg' & H); [|done|done].
      exists w, s', g'. repeat split; [by right|done|done].
    + intros H. exists "", s, g. rewrite Nat.add_0_r.
      repeat split; [by left|done|done].
  - by apply IH1.
  - destruct Hcap as [Hcap1 HQ].
    intros (w & s' & g' & -> & Hl & Hg' & H)%IH1; [|done|done].
    exists w, s'. eexists. split; [done|]. split; [done|]. split; [|exact H].
    replace (pos + String.length w - pos)%nat with (String.length w) by lia.
    rewrite take_app_length. intros n' v.
    destruct (decide (n = n')) as [<-|Hne].
    + rewrite lookup_insert_eq. intros [= <-]. by apply HQ.
    + rewrite lookup_insert_ne by done. apply Hg'.
  - destruct (pos =? 0)%nat; [|done].
    intros H. exists "", s, g. rewrite Nat.add_0_r. done.
  - destruct s as [|a [|b s]]; [| |done].
    + intros H. exists "", "", g. rewrite Nat.add_0_r. done.
    + destruct (Ascii.eqb a PyStr.LF); [|done].
      intros H. exists "", (String a ""), g. rewrite Nat.add_0_r. done.
Qed.

(** In a match object every group holds a text that the group's own
    pattern can consume. *)
Lemma match_sound (pat : Re.regex) (line : string) (m : gmap string string)
    (n v : string) :
  captures Q pat → Re.match_ pat line = Some m → m !! n = Some v → Q n v.
Proof.
  unfold Re.match_. intros Hcap H.
  apply run_sound in H as (w & s' & g' & _ & _ & Hg' & [= <-]); [|done|done].
  apply Hg'.
Qed.
End Sound.

Lemma lang_lit (s w : string) : lang (Re.lit s) w → w = s.
Proof.
  revert w. induction s as [|c s IH]; intros w; simpl; [done|].
  intros (w1 & w2 & -> & (c' & -> & Hc) & Hw2).
  apply Ascii.eqb_eq in Hc as <-. by rewrite (IH w2 Hw2).
Qed.

Lemma lang_many_nonempty (k : Re.cls) (q : Re.quant) (w : string) :
  lang (Re.Many k 1 q) w → w ≠ "" ∧ all_in k w = true.
Proof. simpl. intros [Hlen Hall]. split; [|done]. by destruct w; [simpl in Hlen; lia|]. Qed.

Lemma on_or_off (n w : string) :
  lang (Re.Alt (Re.lit "on") (Re.lit "off")) w → runlevel_text n w.
Proof.
  intros [Hw|Hw]; apply lang_lit in Hw as ->; unfold runlevel_text; auto.
Qed.

Lemma p_captures : captures runlevel_text ServiceScanService.p.
Proof.
  cbv [ServiceScanService.p ServiceScanService.runlevel Re.seq foldr app
       captures].
  repeat split; first [ apply on_or_off | intros w _; by left ].
Qed.

Lemma p_simple_captures : captures runlevel_text ServiceScanService.p_simple.
Proof.
  cbv [ServiceScanService.p_simple Re.seq foldr captures].
  repeat split; first [ apply on_or_off | intros w _; by left ].
Qed.

Lemma upstart_word_text (n : string) (q : Re.quant) (w : string) :
  n = "goal" ∨ n = "state" →
  lang (Re.Many Re.Word 1 q) w → upstart_text n w.
Proof.
  intros Hn Hw%lang_many_nonempty. unfold upstart_text.
  split; [done|]. by destruct Hn as [-> | ->].
Qed.

Lemma upstart_pid_text (q : Re.quant) (w : string) :
  lang (Re.Many Re.Digit 1 q) w → upstart_text "pid" w.
Proof.
  intros Hw%lang_many_nonempty. unfold upstart_text.
  split; [by intros [?|?]|]. by split.
Qed.

Lemma upstart_name_text (q : Re.quant) (w : string) :
  lang (Re.Many Re.Dot 0 q) w → upstart_text "name" w.
Proof.
  simpl. intros [_ Hw]. unfold upstart_text.
  split; [by intros [?|?]|]. by split.
Qed.

Lemma captures_lit (Q : string → string → Prop) (s : string) :
  captures Q (Re.lit s).
Proof. induction s; simpl; auto. Qed.

Lemma upstart_p_captures : captures upstart_text ServiceScanService.upstart_p.
Proof.
  unfold ServiceScanService.upstart_p, Re.seq. cbn [foldr captures].
  repeat match goal with
         | |- _ ∧ _ => split
         | |- True => exact I
         | |- captures _ (Re.lit _) => apply captures_lit
         end.
  - apply upstart_name_text.
  - intros w. apply upstart_word_text. by left.
  - intros w. apply upstart_word_text. by right.
  - apply upstart_pid_text.
Qed.

(** *** What the patterns capture *)

(** X16. A line that the seven-runlevel pattern matches gives a match object
    with the service and the seven runlevels all set, each runlevel to [on]
    or [off]; so a service that the parse loop does not probe is one listed
    with runlevel 3 off. The same holds of the two-column pattern and its
    single runlevel. *)
Theorem runlevels_are_on_or_off (line : string) (m : gmap string string) :
  (Re.match_ ServiceScanService.p line = Some m →
   is_Some (m !! "service")
   ∧ (∀ n, n ∈ ["rl0"; "rl1"; "rl2"; "rl3"; "rl4"; "rl5"; "rl6"] →
           m !! n = Some "on" ∨ m !! n = Some "off")
   ∧ (group m "rl3" = "on" ∨ group m "rl3" = "off")) ∧
  (Re.match_ ServiceScanService.p_simple line = Some m →
   is_Some (m !! "service")
   ∧ (m !! "rl0" = Some "on" ∨ m !! "rl0" = Some "off")).
Proof.
  split; intros Hm.
  - assert (∀ n, n ∈ ["rl0"; "rl1"; "rl2"; "rl3"; "rl4"; "rl5"; "rl6"] →
                 m !! n = Some "on" ∨ m !! n = Some "off") as Hrl.
    { intros n Hn.
      assert (binds n ServiceScanService.p = true ∧ n ≠ "service") as [Hb Hne].
      { repeat (apply elem_of_cons in Hn as [->|Hn]; [by split|]).
        by apply elem_of_nil in Hn. }
      pose proof (group_bound _ _ n m Hm Hb) as Hv.
      destruct (match_sound runlevel_text _ _ _ n _ p_captures Hm Hv)
        as [?|[Hon|Hoff]]; [done| |].
      - left. by rewrite Hv, Hon.
      - right. by rewrite Hv, Hoff. }
    split; [|split; [exact Hrl|]].
    + rewrite (group_bound _ _ "service" m Hm eq_refl). by eexists.
    + unfold group.
      destruct (Hrl "rl3") as [-> | ->]; [by repeat constructor| |]; auto.
  - split.
    + rewrite (group_bound _ _ "service" m Hm eq_refl). by eexists.
    + pose proof (group_bound _ _ "rl0" m Hm eq_refl) as Hv.
      destruct (match_sound runlevel_text _ _ _ "rl0" _ p_simple_captures Hm Hv)
        as [?|[Hon|Hoff]]; [done| |].
      * left. by rewrite Hv, Hon.
      * right. by rewrite Hv, Hoff.
Qed.

Lemma runlevels_are_on_or_off_witness :
  ∃ m, Re.match_ ServiceScanService.p
         "kdump   0:off 1:off 2:off 3:off 4:off 5:off 6:off" = Some m
       ∧ (group m "rl3" = "on" ∨ group m "rl3" = "off").
Proof.
  assert (∃ m, Re.match_ ServiceScanService.p
                 "kdump   0:off 1:off 2:off 3:off 4:off 5:off 6:off" = Some m)
    as [m Hm] by (eexists; vm_compute; reflexivity).
  exists m. split; [exact Hm|].
  apply (proj1 (runlevels_are_on_or_off _ m) Hm).
Defined.

(** X17. A line that the Upstart pattern matches gives a match object with
    name, goal and state set; goal and state are non-empty runs of word
    characters; the pid, when the line has one, is a non-empty run of
    digits, so that [m['pid'] or None] is [m['pid']]. *)
Theorem upstart_groups (line : string) (m : gmap string string) :
  Re.match_ ServiceScanService.upstart_p line = Some m →
  is_Some (m !! "name")
  ∧ (∀ n, n = "goal" ∨ n = "state" →
          ∃ v, m !! n = Some v ∧ v ≠ "" ∧ all_in Re.Word v = true)
  ∧ (∀ v, m !! "pid" = Some v → v ≠ "" ∧ all_in Re.Digit v = true)
  ∧ ServiceScanService.pid_of m = m !! "pid".
Proof.
  intros Hm.
  assert (∀ v, m !! "pid" = Some v → v ≠ "" ∧ all_in Re.Digit v = true) as Hpid.
  { intros v Hv.
    by apply (match_sound upstart_text _ _ _ "pid" v upstart_p_captures Hm Hv). }
  split; [|split; [|split; [exact Hpid|]]].
  - rewrite (group_bound _ _ "name" m Hm eq_refl). by eexists.
  - intros n Hn.
    assert (binds n ServiceScanService.upstart_p = true) as Hb
      by (by destruct Hn as [-> | ->]).
    pose proof (group_bound _ _ n m Hm Hb) as Hv.
    exists (group m n). split; [done|].
    by apply (match_sound upstart_text _ _ _ n _ upstart_p_captures Hm Hv).
  - unfold ServiceScanService.pid_of.
    destruct (m !! "pid") as [v|] eqn:Hv; [|done].
    destruct (Hpid v eq_refl) as [Hne _]. by destruct v.
Qed.

Lemma upstart_groups_witness :
  ∃ m, Re.match_ ServiceScanService.upstart_p "tty1 stop/waiting" = Some m
       ∧ is_Some (m !! "name")
       ∧ ServiceScanService.pid_of m = m !! "pid".
Proof.
  assert (∃ m, Re.match_ ServiceScanService.upstart_p "tty1 stop/waiting"
               = Some m)
    as [m Hm] by (eexists; vm_compute; reflexivity).
  exists m. split; [exact Hm|].
  destruct (upstart_groups _ m Hm) as (Hname & _ & _ & Hpid). by split.
Defined.

(** ** A refused status probe, from the listing to the report *)

(** What the loop stores for a name whose probe is refused, and for one
    whose probe exits with 0. *)
Lemma chkconfig_state_refused (h : Host) (service_path name rl3 : string) :
  rc_of (probe h service_path name) ≠ 0%Z →
  refused (stderr_of (probe h service_path name)) →
  chkconfig_state h service_path name rl3
    = if decide (rl3 = "on") then None else Some "stopped".
Proof.
  intros Hrc Hrefused. unfold chkconfig_state.
  destruct (decide (rl3 = "on")); [|done].
  rewrite decide_False by done. by rewrite decide_True.
Qed.

Lemma chkconfig_state_clean (h : Host) (service_path name rl3 : string) :
  rc_of (probe h service_path name) = 0%Z →
  chkconfig_state h service_path name rl3
    = Some (if decide (rl3 = "on") then "running" else "stopped").
Proof.
  intros Hrc. unfold chkconfig_state.
  destruct (decide (rl3 = "on")); [|done]. by rewrite decide_True.
Qed.

Lemma omap_total {A B : Type} (f : A → option B) (g : A → B) (l : list A) :
  (∀ x, f x = Some (g x)) → omap f l = g <$> l.
Proof.
  intros Hf. induction l as [|x l IH]; [done|].
  csimpl. by rewrite Hf, IH.
Qed.

(** The last state stored for a refused name: none when every line that
    names it has runlevel 3 on, stopped otherwise. *)
Lemma refused_last_state (h : Host) (service_path name : string)
    (rl3s : list string) :
  rc_of (probe h service_path name) ≠ 0%Z →
  refused (stderr_of (probe h service_path name)) →
  ((∀ rl3, rl3 ∈ rl3s → rl3 = "on") →
     last (omap (chkconfig_state h service_path name) rl3s) = None)
  ∧ ((∃ rl3, rl3 ∈ rl3s ∧ rl3 ≠ "on") →
     last (omap (chkconfig_state h service_path name) rl3s) = Some "stopped").
Proof.
  intros Hrc Hrefused. split.
  - intros Hon.
    assert (omap (chkconfig_state h service_path name) rl3s = []) as ->; [|done].
    induction rl3s as [|rl3 rl3s IH]; [done|].
    csimpl. rewrite (chkconfig_state_refused _ _ _ _ Hrc Hrefused).
    rewrite decide_True by (apply Hon; left).
    apply IH. intros x Hx. apply Hon. by right.
  - intros (rl3 & Hin & Hoff).
    destruct (last (omap (chkconfig_state h service_path name) rl3s))
      as [state|] eqn:Hlast.
    + apply last_Some_elem_of, list_elem_of_omap in Hlast as (x & _ & Hx).
      rewrite (chkconfig_state_refused _ _ _ _ Hrc Hrefused) in Hx.
      destruct (decide (x = "on")); congruence.
    + exfalso.
      assert (is_Some (last (omap (chkconfig_state h service_path name) rl3s)))
        as [? ?]; [|congruence].
      apply last_is_Some. intros Hnil.
      assert ("stopped" ∈ omap (chkconfig_state h service_path name) rl3s)
        as Hs.
      { apply list_elem_of_omap. exists rl3. split; [done|].
        rewrite (chkconfig_state_refused _ _ _ _ Hrc Hrefused).
        by rewrite decide_False. }
      rewrite Hnil in Hs. by apply elem_of_nil in Hs.
Qed.

(** What [main]'s loop leaves under a key: the systemd scanner's record
    when it has one, the first scanner's otherwise. *)
Lemma scan_all_lookup (h : Host) (key : string) :
  services (scan_all h) !! key =
    match default ∅ (svc (SystemctlScanService.gather_services h)) !! key with
    | Some r => Some r
    | None => default ∅ (svc (ServiceScanService.gather_services h)) !! key
    end.
Proof.
  rewrite (proj1 (scan_all_eq h)), lookup_union.
  destruct (default ∅ (svc (SystemctlScanService.gather_services h)) !! key);
    by destruct (default ∅ (svc (ServiceScanService.gather_services h)) !! key).
Qed.

(** The report of [main] once a scanner has set its flag. *)
Lemma main_incomplete (h : Host) :
  incomplete_warning (ServiceScanService.gather_services h) = true →
  main h =
    if decide (services (scan_all h) = ∅) then Skipped FAILED_MSG
    else Facts (services (scan_all h)) (Some WARNING_MSG).
Proof.
  intros Hflag. unfold main, report.
  destruct (scan_all_eq h) as (_ & -> & _). by rewrite Hflag.
Qed.

(** C4, as the code has it. On a host with the service and chkconfig
    binaries, take a service that some listing line shows with runlevel 3
    on and whose status probe exits non-zero with a stderr that contains
    root, or permission or not in sudoers in any case. With nothing more
    assumed: the scanner returns a map and has its incomplete flag set;
    every listing line that names the service with runlevel 3 on leaves the
    map as it was and sets the flag; the scanner's map has no record of the
    service when no listing line names it with another runlevel-3 column,
    and its stopped record when one does; the final map has, under every
    name, the systemd scanner's record when there is one and the first
    scanner's otherwise; and the report is the skip when the final map is
    empty, the final map with the warning otherwise. And for every sibling
    that some listing line shows with runlevel 3 on and whose probe exits
    with 0: the scanner's map has its record, running when the last line
    that names it has runlevel 3 on and stopped otherwise; the final map
    has a record under its name; and the report is the final map with the
    warning. *)
Theorem refused_service_is_skipped (h : Host)
    (service_path chkconfig_path name : string) :
  get_bin_path h "service" [] = Some service_path →
  get_bin_path h "chkconfig" [] = Some chkconfig_path →
  let lines := listing_lines h chkconfig_path in
  let scanner := ServiceScanService.gather_services h in
  let systemd := default ∅ (svc (SystemctlScanService.gather_services h)) in
  let all_services := services (scan_all h) in
  let warned :=
    Facts all_services
      (Some "WARNING: Could not find status for all services. Sometimes this is due to insufficient privileges.") in
  listed lines name "on" →
  rc_of (probe h service_path name) ≠ 0%Z →
  refused (stderr_of (probe h service_path name)) →
  ∃ found,
    svc scanner = Some found
    ∧ incomplete_warning scanner = true
    ∧ (∀ st line m,
         Re.match_ ServiceScanService.p line = Some m →
         group m "service" = name → group m "rl3" = "on" →
         ServiceScanService.chkconfig_line h service_path st line
           = Scan (services st) true
                  (calls st ++ [(ServiceStatus, status_cmd service_path name)]))
    ∧ ((∀ rl3, listed lines name rl3 → rl3 = "on") → found !! name = None)
    ∧ ((∃ rl3, listed lines name rl3 ∧ rl3 ≠ "on") →
         found !! name = Some (record_of name (PStr "stopped") "sysv"))
    ∧ (∀ key, all_services !! key =
                match systemd !! key with
                | Some r => Some r
                | None => found !! key
                end)
    ∧ main h =
        (if decide (all_services = ∅)
         then Skipped "Failed to find any services. Sometimes this is due to insufficient privileges."
         else warned)
    ∧ (∀ sibling,
         listed lines sibling "on" →
         rc_of (probe h service_path sibling) = 0%Z →
         ∃ rl3,
           last (runlevel3 lines sibling) = Some rl3
           ∧ found !! sibling
               = Some (record_of sibling
                         (PStr (if decide (rl3 = "on") then "running"
                                else "stopped")) "sysv")
           ∧ is_Some (all_services !! sibling)
           ∧ main h = warned).
Proof.
  intros Hs Hc lines scanner systemd all_services warned Hname Hrc Hrefused.
  destruct (gather_chkconfig h service_path chkconfig_path Hs Hc)
    as (st0 & Hst0 & Hgather).
  cbv zeta in Hgather. fold lines in Hgather. fold scanner in Hgather.
  set (st := foldl (ServiceScanService.chkconfig_line h service_path) st0 lines)
    in Hgather.
  assert (incomplete_warning scanner = true) as Hflag.
  { rewrite Hgather. simpl.
    by apply (loop_flags_refused h service_path lines name). }
  assert (∀ key, services st !! key =
            (λ state, record_of key (PStr state) "sysv")
            <$> last (omap (chkconfig_state h service_path key)
                           (runlevel3 lines key))) as Hfound.
  { intros key. unfold st.
    rewrite chkconfig_loop_lookup, Hst0, lookup_empty. by destruct (last _). }
  assert (∀ key, all_services !! key =
            match systemd !! key with
            | Some r => Some r
            | None => services st !! key
            end) as Hmerge.
  { intros key. unfold all_services. rewrite scan_all_lookup.
    fold scanner. fold systemd. by rewrite Hgather. }
  pose proof (main_incomplete h Hflag) as Hmain. fold all_services in Hmain.
  destruct (refused_last_state h service_path name (runlevel3 lines name)
              Hrc Hrefused) as [Hnone Hstopped].
  exists (services st).
  split; [by rewrite Hgather|]. split; [exact Hflag|].
  split; [|split; [|split; [|split; [|split]]]].
  - intros a line m Hm Hservice Hrl3.
    rewrite chkconfig_line_eq, Hm. cbv zeta.
    rewrite Hrl3, Hservice. fold (probe h service_path name). simpl.
    rewrite decide_False by done.
    by rewrite (refused_permission_denied _ Hrefused).
  - intros Hon. rewrite Hfound, Hnone; [done|].
    intros rl3 Hin. by apply Hon, listed_runlevel3.
  - intros (rl3 & Hin & Hoff). rewrite Hfound, Hstopped; [done|].
    exists rl3. split; [by apply listed_runlevel3|done].
  - exact Hmerge.
  - exact Hmain.
  - intros sibling Hsib Hsib_rc.
    assert (is_Some (last (runlevel3 lines sibling))) as [rl3 Hlast].
    { apply last_is_Some. intros Hnil.
      apply listed_runlevel3 in Hsib. rewrite Hnil in Hsib.
      by apply elem_of_nil in Hsib. }
    assert (services st !! sibling
            = Some (record_of sibling
                      (PStr (if decide (rl3 = "on") then "running"
                             else "stopped")) "sysv")) as Hrecord.
    { rewrite Hfound.
      rewrite (omap_total _ (λ rl3, if decide (rl3 = "on") then "running"
                                    else "stopped"))
        by (intros x; by apply chkconfig_state_clean).
      by rewrite fmap_last, Hlast. }
    assert (is_Some (all_services !! sibling)) as Hpresent.
    { rewrite Hmerge, Hrecord. by destruct (systemd !! sibling). }
    exists rl3. split; [exact Hlast|]. split; [exact Hrecord|].
    split; [exact Hpresent|].
    rewrite Hmain. rewrite decide_False; [done|].
    intros Hempty. rewrite Hempty, lookup_empty in Hpresent.
    by destruct Hpresent.
Qed.

(** The theorem on three hosts: one where vault is listed once beside a
    crond that can be probed, one where the listing names vault a second
    time with runlevel 3 off, and one where vault is the only service. *)
Lemma refused_service_is_skipped_witness :
  (∃ all_services,
     main Hosts.chkconfig_host =
       Facts all_services
         (Some "WARNING: Could not find status for all services. Sometimes this is due to insufficient privileges.")
     ∧ all_services !! "vault" = None
     ∧ all_services !! "crond"
         = Some (record_of "crond" (PStr "running") "sysv"))
  ∧ (∃ all_services,
       incomplete_warning (ServiceScanService.gather_services Hosts.relisted_host)
         = true
       ∧ main Hosts.relisted_host =
           Facts all_services
             (Some "WARNING: Could not find status for all services. Sometimes this is due to insufficient privileges.")
       ∧ all_services !! "vault"
           = Some (record_of "vault" (PStr "stopped") "sysv")
       ∧ all_services !! "crond"
           = Some (record_of "crond" (PStr "running") "sysv"))
  ∧ (svc (ServiceScanService.gather_services Hosts.lonely_host) = Some ∅
     ∧ incomplete_warning (ServiceScanService.gather_services Hosts.lonely_host)
         = true
     ∧ main Hosts.lonely_host =
         Skipped "Failed to find any services. Sometimes this is due to insufficient privileges.").
Proof.
  split; [|split].
  - assert (runlevel3 (listing_lines Hosts.chkconfig_host "/sbin/chkconfig")
              "vault" = ["on"]) as Hvault by (vm_compute; reflexivity).
    assert (runlevel3 (listing_lines Hosts.chkconfig_host "/sbin/chkconfig")
              "crond" = ["on"]) as Hcrond by (vm_compute; reflexivity).
    assert (default ∅ (svc (SystemctlScanService.gather_services
                              Hosts.chkconfig_host)) = ∅) as Hsystemd
      by (vm_compute; reflexivity).
    pose proof (refused_service_is_skipped Hosts.chkconfig_host
                  "/sbin/service" "/sbin/chkconfig" "vault"
                  eq_refl eq_refl) as H.
    cbv zeta in H.
    destruct H as (found & _ & _ & _ & Habsent & _ & Hmerge & _ & Hsibling).
    + column Hvault.
    + vm_compute. discriminate.
    + right; right. vm_compute. reflexivity.
    + destruct (Hsibling "crond") as (rl3 & Hlast & Hrecord & _ & Hmain).
      * column Hcrond.
      * vm_compute. reflexivity.
      * rewrite Hcrond in Hlast. injection Hlast as <-.
        exists (services (scan_all Hosts.chkconfig_host)).
        split; [exact Hmain|].
        rewrite !Hmerge, Hsystemd, !lookup_empty.
        split; [apply Habsent; column Hvault|exact Hrecord].
  - assert (runlevel3 (listing_lines Hosts.relisted_host "/sbin/chkconfig")
              "vault" = ["on"; "off"]) as Hvault by (vm_compute; reflexivity).
    assert (runlevel3 (listing_lines Hosts.relisted_host "/sbin/chkconfig")
              "crond" = ["on"]) as Hcrond by (vm_compute; reflexivity).
    assert (default ∅ (svc (SystemctlScanService.gather_services
                              Hosts.relisted_host)) = ∅) as Hsystemd
      by (vm_compute; reflexivity).
    pose proof (refused_service_is_skipped Hosts.relisted_host
                  "/sbin/service" "/sbin/chkconfig" "vault"
                  eq_refl eq_refl) as H.
    cbv zeta in H.
    destruct H as (found & _ & Hflag & _ & _ & Hstopped & Hmerge & _ & Hsibling).
    + column Hvault.
    + vm_compute. discriminate.
    + right; right. vm_compute. reflexivity.
    + destruct (Hsibling "crond") as (rl3 & Hlast & Hrecord & _ & Hmain).
      * column Hcrond.
      * vm_compute. reflexivity.
      * rewrite Hcrond in Hlast. injection Hlast as <-.
        exists (services (scan_all Hosts.relisted_host)).
        split; [exact Hflag|]. split; [exact Hmain|].
        rewrite !Hmerge, Hsystemd, !lookup_empty.
        split; [|exact Hrecord].
        apply Hstopped. exists "off". split; [|done].
        apply listed_runlevel3. rewrite Hvault. repeat constructor.
  - assert (runlevel3 (listing_lines Hosts.lonely_host "/sbin/chkconfig")
              "vault" = ["on"]) as Hvault by (vm_compute; reflexivity).
    assert (services (scan_all Hosts.lonely_host) = ∅) as Hempty
      by (vm_compute; reflexivity).
    pose proof (refused_service_is_skipped Hosts.lonely_host
                  "/sbin/service" "/sbin/chkconfig" "vault"
                  eq_refl eq_refl) as H.
    cbv zeta in H.
    destruct H as (found & Hfound & Hflag & _ & _ & _ & _ & Hmain & _).
    + column Hvault.
    + vm_compute. discriminate.
    + right; right. vm_compute. reflexivity.
    + split; [vm_compute; reflexivity|]. split; [exact Hflag|].
      rewrite Hmain, Hempty. reflexivity.
Defined.

(** C4 as it is worded fails on five hosts, each with a vault that some
    listing line shows with runlevel 3 on and whose probe is refused. On
    the first the systemd scanner has a record under the name vault, so
    the final map has it; on the second the listing names vault a second
    time with runlevel 3 off, so the loop stores it as stopped. On the
    third vault is the only service, so the final map is empty and the
    report is the skip, without the warning. On the fourth the sibling
    crond, whose probe exits with 0, is named a second time with runlevel
    3 off and ends up stopped; on the fifth the systemd scanner has a
    record under the name crond, which replaces the running one. *)
Lemma refused_service_still_reported :
  (let h := Hosts.shadowed_host in
   listed (listing_lines h "/sbin/chkconfig") "vault" "on"
   ∧ rc_of (probe h "/sbin/service" "vault") ≠ 0%Z
   ∧ refused (stderr_of (probe h "/sbin/service" "vault"))
   ∧ ∃ all_services msg,
       main h = Facts all_services msg
       ∧ all_services !! "vault"
           = Some (record_of "vault" (PStr "running") "systemd"))
  ∧
  (let h := Hosts.relisted_host in
   listed (listing_lines h "/sbin/chkconfig") "vault" "on"
   ∧ rc_of (probe h "/sbin/service" "vault") ≠ 0%Z
   ∧ refused (stderr_of (probe h "/sbin/service" "vault"))
   ∧ ∃ all_services msg,
       main h = Facts all_services msg
       ∧ all_services !! "vault"
           = Some (record_of "vault" (PStr "stopped") "sysv"))
  ∧
  (let h := Hosts.lonely_host in
   listed (listing_lines h "/sbin/chkconfig") "vault" "on"
   ∧ rc_of (probe h "/sbin/service" "vault") ≠ 0%Z
   ∧ refused (stderr_of (probe h "/sbin/service" "vault"))
   ∧ main h =
       Skipped "Failed to find any services. Sometimes this is due to insufficient privileges.")
  ∧
  (let h := Hosts.relisted_sibling_host in
   listed (listing_lines h "/sbin/chkconfig") "vault" "on"
   ∧ rc_of (probe h "/sbin/service" "vault") ≠ 0%Z
   ∧ refused (stderr_of (probe h "/sbin/service" "vault"))
   ∧ listed (listing_lines h "/sbin/chkconfig") "crond" "on"
   ∧ rc_of (probe h "/sbin/service" "crond") = 0%Z
   ∧ ∃ all_services msg,
       main h = Facts all_services msg
       ∧ all_services !! "crond"
           = Some (record_of "crond" (PStr "stopped") "sysv"))
  ∧
  (let h := Hosts.shadowed_sibling_host in
   listed (listing_lines h "/sbin/chkconfig") "vault" "on"
   ∧ rc_of (probe h "/sbin/service" "vault") ≠ 0%Z
   ∧ refused (stderr_of (probe h "/sbin/service" "vault"))
   ∧ listed (listing_lines h "/sbin/chkconfig") "crond" "on"
   ∧ rc_of (probe h "/sbin/service" "crond") = 0%Z
   ∧ ∃ all_services msg,
       main h = Facts all_services msg
       ∧ all_services !! "crond"
           = Some (record_of "crond" (PStr "stopped") "systemd")).
Proof.
  split; [|split; [|split; [|split]]]; cbv zeta.
  - assert (runlevel3 (listing_lines Hosts.shadowed_host "/sbin/chkconfig") "vault"
            = ["on"]) as Hvault by (vm_compute; reflexivity).
    split; [column Hvault|].
    split; [vm_compute; discriminate|].
    split; [right; right; vm_compute; reflexivity|].
    eexists _, _. split; vm_compute; reflexivity.
  - assert (runlevel3 (listing_lines Hosts.relisted_host "/sbin/chkconfig") "vault"
            = ["on"; "off"]) as Hvault by (vm_compute; reflexivity).
    split; [column Hvault|].
    split; [vm_compute; discriminate|].
    split; [right; right; vm_compute; reflexivity|].
    eexists _, _. split; vm_compute; reflexivity.
  - assert (runlevel3 (listing_lines Hosts.lonely_host "/sbin/chkconfig") "vault"
            = ["on"]) as Hvault by (vm_compute; reflexivity).
    split; [column Hvault|].
    split; [vm_compute; discriminate|].
    split; [right; right; vm_compute; reflexivity|].
    vm_compute. reflexivity.
  - assert (runlevel3 (listing_lines Hosts.relisted_sibling_host
                         "/sbin/chkconfig") "vault"
            = ["on"]) as Hvault by (vm_compute; reflexivity).
    assert (runlevel3 (listing_lines Hosts.relisted_sibling_host
                         "/sbin/chkconfig") "crond"
            = ["on"; "off"]) as Hcrond by (vm_compute; reflexivity).
    split; [column Hvault|].
    split; [vm_compute; discriminate|].
    split; [right; right; vm_compute; reflexivity|].
    split; [column Hcrond|].
    split; [vm_compute; reflexivity|].
    eexists _, _. split; vm_compute; reflexivity.
  - assert (runlevel3 (listing_lines Hosts.shadowed_sibling_host
                         "/sbin/chkconfig") "vault"
            = ["on"]) as Hvault by (vm_compute; reflexivity).
    assert (runlevel3 (listing_lines Hosts.shadowed_sibling_host
                         "/sbin/chkconfig") "crond"
            = ["on"]) as Hcrond by (vm_compute; reflexivity).
    split; [column Hvault|].
    split; [vm_compute; discriminate|].
    split; [right; right; vm_compute; reflexivity|].
    split; [column Hcrond|].
    split; [vm_compute; reflexivity|].
    eexists _, _. split; vm_compute; reflexivity.
Qed.
